(** * SocialBondFhe: batch lifecycle, encrypted aggregation and the
      decryption request/callback protocol

    A shallow embedding of the Solidity contract [SocialBondFhe]
    (the contract text shipped in the repository's README) and the
    properties of its batching and reveal protocol.

    Conventions.
    - [uint256], [address], [bytes32] and the ciphertext handle type
      [euint32] are natural numbers ([N]); Solidity 0.8 checked arithmetic
      is written out: an addition whose result does not fit 256 bits
      reverts with [Panic 0x11].
    - A Solidity [mapping] is a [gmap] read with the zero value as default.
    - A function body is a computation in a small state-and-revert monad
      [M]; a revert discards every write of the call.
    - The FHE library, [keccak256] and the deployed address are external to
      the repository: they are the fields of the classes [FHE] and [EVM]. *)

From Stdlib Require Import NArith List Bool Lia.
From Stdlib Require Import Strings.Byte.
From stdpp Require Import base option gmap.
Import ListNotations.

Local Open Scope N_scope.

(** ** Value types *)

Definition uint256 : Type := N.
Definition address : Type := N.
Definition bytes32 : Type := N.
Definition euint32 : Type := bytes32.
Definition bytes : Type := list Byte.byte.

Definition MAX_UINT256 : N := 2 ^ 256 - 1.
Definition MAX_UINT32 : N := 2 ^ 32 - 1.

(** ** External capabilities *)

(** The operations of [FHE.sol] the contract calls, as pure total functions
    on handles. *)
Class FHE := {
  FHE_add : euint32 -> euint32 -> euint32;
  FHE_asEuint32 : uint256 -> euint32;
  FHE_toBytes32 : euint32 -> bytes32;
  FHE_isInitialized : euint32 -> bool;
  FHE_checkSignatures : uint256 -> bytes -> bytes -> bool
}.

(** What the execution environment fixes for a deployed contract:
    [keccak256], over the 32-byte words of an ABI encoding, and
    [address(this)]. *)
Class EVM := {
  keccak256 : list uint256 -> bytes32;
  address_this : address
}.

(** ** Storage layout *)

Record DecryptionContext := mkDecryptionContext {
  batchId : uint256;
  stateHash : bytes32;
  processed : bool
}.

Record Bond := mkBond {
  encryptedAmount : euint32;
  encryptedMaturity : euint32
}.

Record Batch := mkBatch {
  totalEncryptedAmount : uint256;
  bondCount : uint256;
  finalized : bool
}.

Record State := mkState {
  owner : address;
  providers : gmap N bool;
  lastSubmissionTime : gmap N N;
  lastDecryptionRequestTime : gmap N N;
  cooldownSeconds : uint256;
  paused : bool;
  currentBatchId : uint256;
  batchOpen : bool;
  decryptionContexts : gmap N DecryptionContext;
  bonds : gmap N Bond;
  totalBonds : uint256;
  batches : gmap N Batch
}.

(** Zero values of the structs: what a mapping returns for an unwritten key. *)
Definition zero_context : DecryptionContext := mkDecryptionContext 0 0 false.
Definition zero_batch : Batch := mkBatch 0 0 false.

(** Mapping reads. *)
Definition providers_at (s : State) (a : address) : bool :=
  default false (providers s !! a).
Definition lastSubmissionTime_at (s : State) (a : address) : uint256 :=
  default 0 (lastSubmissionTime s !! a).
Definition lastDecryptionRequestTime_at (s : State) (a : address) : uint256 :=
  default 0 (lastDecryptionRequestTime s !! a).
Definition context_at (s : State) (requestId : uint256) : DecryptionContext :=
  default zero_context (decryptionContexts s !! requestId).
Definition batch_at (s : State) (id : uint256) : Batch :=
  default zero_batch (batches s !! id).

(** Field writes. *)
Definition set_owner (v : address) (s : State) : State :=
  mkState v (providers s) (lastSubmissionTime s) (lastDecryptionRequestTime s)
    (cooldownSeconds s) (paused s) (currentBatchId s) (batchOpen s)
    (decryptionContexts s) (bonds s) (totalBonds s) (batches s).
Definition set_providers (v : gmap N bool) (s : State) : State :=
  mkState (owner s) v (lastSubmissionTime s) (lastDecryptionRequestTime s)
    (cooldownSeconds s) (paused s) (currentBatchId s) (batchOpen s)
    (decryptionContexts s) (bonds s) (totalBonds s) (batches s).
Definition set_lastSubmissionTime (v : gmap N N) (s : State) : State :=
  mkState (owner s) (providers s) v (lastDecryptionRequestTime s)
    (cooldownSeconds s) (paused s) (currentBatchId s) (batchOpen s)
    (decryptionContexts s) (bonds s) (totalBonds s) (batches s).
Definition set_lastDecryptionRequestTime (v : gmap N N) (s : State) : State :=
  mkState (owner s) (providers s) (lastSubmissionTime s) v
    (cooldownSeconds s) (paused s) (currentBatchId s) (batchOpen s)
    (decryptionContexts s) (bonds s) (totalBonds s) (batches s).
Definition set_cooldownSeconds (v : uint256) (s : State) : State :=
  mkState (owner s) (providers s) (lastSubmissionTime s)
    (lastDecryptionRequestTime s) v (paused s) (currentBatchId s) (batchOpen s)
    (decryptionContexts s) (bonds s) (totalBonds s) (batches s).
Definition set_paused (v : bool) (s : State) : State :=
  mkState (owner s) (providers s) (lastSubmissionTime s)
    (lastDecryptionRequestTime s) (cooldownSeconds s) v (currentBatchId s)
    (batchOpen s) (decryptionContexts s) (bonds s) (totalBonds s) (batches s).
Definition set_currentBatchId (v : uint256) (s : State) : State :=
  mkState (owner s) (providers s) (lastSubmissionTime s)
    (lastDecryptionRequestTime s) (cooldownSeconds s) (paused s) v
    (batchOpen s) (decryptionContexts s) (bonds s) (totalBonds s) (batches s).
Definition set_batchOpen (v : bool) (s : State) : State :=
  mkState (owner s) (providers s) (lastSubmissionTime s)
    (lastDecryptionRequestTime s) (cooldownSeconds s) (paused s)
    (currentBatchId s) v (decryptionContexts s) (bonds s) (totalBonds s)
    (batches s).
Definition set_decryptionContexts (v : gmap N DecryptionContext) (s : State)
  : State :=
  mkState (owner s) (providers s) (lastSubmissionTime s)
    (lastDecryptionRequestTime s) (cooldownSeconds s) (paused s)
    (currentBatchId s) (batchOpen s) v (bonds s) (totalBonds s) (batches s).
Definition set_bonds (v : gmap N Bond) (s : State) : State :=
  mkState (owner s) (providers s) (lastSubmissionTime s)
    (lastDecryptionRequestTime s) (cooldownSeconds s) (paused s)
    (currentBatchId s) (batchOpen s) (decryptionContexts s) v (totalBonds s)
    (batches s).
Definition set_totalBonds (v : uint256) (s : State) : State :=
  mkState (owner s) (providers s) (lastSubmissionTime s)
    (lastDecryptionRequestTime s) (cooldownSeconds s) (paused s)
    (currentBatchId s) (batchOpen s) (decryptionContexts s) (bonds s) v
    (batches s).
Definition set_batches (v : gmap N Batch) (s : State) : State :=
  mkState (owner s) (providers s) (lastSubmissionTime s)
    (lastDecryptionRequestTime s) (cooldownSeconds s) (paused s)
    (currentBatchId s) (batchOpen s) (decryptionContexts s) (bonds s)
    (totalBonds s) v.

(** Writes to one field of a struct held in a mapping. *)
Definition write_batch_total (id : uint256) (v : uint256) (s : State) : State :=
  let b := batch_at s id in
  set_batches (<[id := mkBatch v (bondCount b) (finalized b)]> (batches s)) s.
Definition write_batch_count (id : uint256) (v : uint256) (s : State) : State :=
  let b := batch_at s id in
  set_batches
    (<[id := mkBatch (totalEncryptedAmount b) v (finalized b)]> (batches s)) s.
Definition write_batch_finalized (id : uint256) (v : bool) (s : State) : State :=
  let b := batch_at s id in
  set_batches
    (<[id := mkBatch (totalEncryptedAmount b) (bondCount b) v]> (batches s)) s.
Definition write_context_processed (requestId : uint256) (v : bool) (s : State)
  : State :=
  let c := context_at s requestId in
  set_decryptionContexts
    (<[requestId := mkDecryptionContext (batchId c) (stateHash c) v]>
       (decryptionContexts s)) s.

(** ** Events and errors *)

Inductive Event :=
| OwnershipTransferred (previousOwner newOwner : address)
| ProviderAdded (provider : address)
| ProviderRemoved (provider : address)
| CooldownSecondsChanged (oldCooldown newCooldown : uint256)
| Paused (account : address)
| Unpaused (account : address)
| BatchOpened (id : uint256)
| BatchClosed (id : uint256)
| BondSubmitted (provider : address) (bondId id : uint256)
| DecryptionRequested (requestId id : uint256)
| DecryptionCompleted (requestId id : uint256) (totalAmount count : uint256).

(** The contract's custom errors, plus the two reverts the compiler inserts:
    [Panic code] (0x11 is arithmetic overflow) and the empty revert of a
    failed [abi.decode]. *)
Inductive Error :=
| NotOwner
| NotProvider
| PausedState
| CooldownActive
| BatchNotOpen
| BatchAlreadyOpen
| InvalidBatch
| InvalidCooldown
| ReplayAttempt
| StateMismatch
| InvalidProof
| Panic (code : N)
| AbiDecodeFailure.

(** ** The call monad *)

Inductive Outcome (A : Type) :=
| Revert (e : Error)
| Return (a : A) (s : State) (evs : list Event).
Arguments Revert {A} e.
Arguments Return {A} a s evs.

Definition M (A : Type) : Type := State -> Outcome A.

Definition ret {A} (a : A) : M A := fun s => Return a s [].
Definition bind {A B} (m : M A) (k : A -> M B) : M B :=
  fun s =>
    match m s with
    | Revert e => Revert e
    | Return a s1 evs1 =>
        match k a s1 with
        | Revert e => Revert e
        | Return b s2 evs2 => Return b s2 (evs1 ++ evs2)
        end
    end.
Definition revert {A} (e : Error) : M A := fun _ => Revert e.
Definition get : M State := fun s => Return s s [].
Definition modify (f : State -> State) : M unit := fun s => Return tt (f s) [].
Definition emit (e : Event) : M unit := fun s => Return tt s [e].

(** [if (c) revert E();] *)
Definition revert_if (c : bool) (e : Error) : M unit :=
  if c then revert e else ret tt.

Declare Scope sol_scope.
Delimit Scope sol_scope with sol.
Notation "x <- m ;; k" := (bind m (fun x => k))
  (at level 100, m at next level, right associativity) : sol_scope.
Notation "m ;; k" := (bind m (fun _ => k))
  (at level 100, right associativity) : sol_scope.
Local Open Scope sol_scope.

(** Checked [a + b] on [uint256]. *)
Definition checked_add (a b : uint256) : M uint256 :=
  if a + b <=? MAX_UINT256 then ret (a + b) else revert (Panic 17).

(** ** Transaction environment *)

(** [msg.sender], [block.timestamp], and the request id that
    [FHE.requestDecryption] hands out if this transaction calls it (the
    oracle's id allocation lives outside the contract). *)
Record Env := mkEnv {
  msg_sender : address;
  block_timestamp : uint256;
  oracle_requestId : uint256
}.

(** ** ABI helpers *)

(** Big-endian value of a byte string. *)
Definition be_value (bs : bytes) : N :=
  fold_left (fun acc b => acc * 256 + Byte.to_N b) bs 0.

(** The [i]-th 32-byte word of a byte string. *)
Definition word_at (i : nat) (bs : bytes) : bytes :=
  firstn 32 (skipn (32 * i) bs).

(** [abi.decode(cleartexts, (uint32, uint32))]: two head words, each
    validated to fit 32 bits; [None] for a shorter input or a dirty word. *)
Definition decode_uint32_uint32 (cleartexts : bytes) : option (uint256 * uint256) :=
  if (length cleartexts <? 64)%nat then None
  else
    let w0 := be_value (word_at 0 cleartexts) in
    let w1 := be_value (word_at 1 cleartexts) in
    if (w0 <=? MAX_UINT32) && (w1 <=? MAX_UINT32) then Some (w0, w1)
    else None.

(** The decoder inside a call: a failed decode reverts. *)
Definition abi_decode_uint32_uint32 (cleartexts : bytes) : M (uint256 * uint256) :=
  match decode_uint32_uint32 cleartexts with
  | Some p => ret p
  | None => revert AbiDecodeFailure
  end.

(** [abi.encode(cts, address(this))] for a dynamic [bytes32[]] and an address,
    as 32-byte words: offset of the array, the address, then the array's
    length and elements. *)
Definition abi_encode_cts (cts : list bytes32) (this : address) : list uint256 :=
  [64; this; N.of_nat (length cts)] ++ cts.

(** ** The contract *)

Section Contract.
Context {fhe : FHE} {evm : EVM}.

(** *** Modifiers *)

Definition onlyOwner (env : Env) : M unit :=
  s <- get ;;
  revert_if (negb (msg_sender env =? owner s)) NotOwner.

Definition onlyProvider (env : Env) : M unit :=
  s <- get ;;
  revert_if (negb (providers_at s (msg_sender env))) NotProvider.

Definition whenNotPaused : M unit :=
  s <- get ;;
  revert_if (paused s) PausedState.

Definition checkSubmissionCooldown (env : Env) : M unit :=
  s <- get ;;
  ready <- checked_add (lastSubmissionTime_at s (msg_sender env))
                       (cooldownSeconds s) ;;
  revert_if (block_timestamp env <? ready) CooldownActive.

Definition checkDecryptionCooldown (env : Env) : M unit :=
  s <- get ;;
  ready <- checked_add (lastDecryptionRequestTime_at s (msg_sender env))
                       (cooldownSeconds s) ;;
  revert_if (block_timestamp env <? ready) CooldownActive.

(** *** Deployment *)

(** The state after deployment (which also logs
    [OwnershipTransferred(0, deployer)]). *)
Definition constructor (deployer : address) : State :=
  mkState deployer ∅ ∅ ∅ 60 false 0 false ∅ ∅ 0 ∅.

(** *** Access control *)

Definition transferOwnership (env : Env) (newOwner : address) : M unit :=
  onlyOwner env ;;
  s <- get ;;
  let previousOwner := owner s in
  modify (set_owner newOwner) ;;
  emit (OwnershipTransferred previousOwner newOwner).

Definition addProvider (env : Env) (provider : address) : M unit :=
  onlyOwner env ;;
  modify (fun s => set_providers (<[provider := true]> (providers s)) s) ;;
  emit (ProviderAdded provider).

Definition removeProvider (env : Env) (provider : address) : M unit :=
  onlyOwner env ;;
  modify (fun s => set_providers (<[provider := false]> (providers s)) s) ;;
  emit (ProviderRemoved provider).

Definition setCooldownSeconds (env : Env) (newCooldownSeconds : uint256)
  : M unit :=
  onlyOwner env ;;
  revert_if (newCooldownSeconds =? 0) InvalidCooldown ;;
  s <- get ;;
  let oldCooldown := cooldownSeconds s in
  modify (set_cooldownSeconds newCooldownSeconds) ;;
  emit (CooldownSecondsChanged oldCooldown newCooldownSeconds).

Definition pause (env : Env) : M unit :=
  onlyOwner env ;;
  whenNotPaused ;;
  modify (set_paused true) ;;
  emit (Paused (msg_sender env)).

Definition unpause (env : Env) : M unit :=
  onlyOwner env ;;
  modify (set_paused false) ;;
  emit (Unpaused (msg_sender env)).

(** *** Batch lifecycle *)

Definition openBatch (env : Env) : M unit :=
  onlyOwner env ;;
  whenNotPaused ;;
  s <- get ;;
  revert_if (batchOpen s) BatchAlreadyOpen ;;
  next <- checked_add (currentBatchId s) 1 ;;
  modify (set_currentBatchId next) ;;
  modify (set_batchOpen true) ;;
  modify (write_batch_total next 0) ;;
  modify (write_batch_count next 0) ;;
  modify (write_batch_finalized next false) ;;
  emit (BatchOpened next).

Definition closeBatch (env : Env) : M unit :=
  onlyOwner env ;;
  whenNotPaused ;;
  s <- get ;;
  revert_if (negb (batchOpen s)) BatchNotOpen ;;
  modify (set_batchOpen false) ;;
  modify (write_batch_finalized (currentBatchId s) true) ;;
  emit (BatchClosed (currentBatchId s)).

(** *** Submission *)

(** The helper evaluates [FHE.asEuint32(0)] on an uninitialized handle and
    drops the value. *)
Definition _initIfNeeded (val : euint32) : M unit :=
  if negb (FHE_isInitialized val)
  then (let _ := FHE_asEuint32 0 in ret tt)
  else ret tt.

Definition submitBond (env : Env) (encryptedAmount encryptedMaturity : euint32)
  : M unit :=
  onlyProvider env ;;
  whenNotPaused ;;
  checkSubmissionCooldown env ;;
  s <- get ;;
  revert_if (negb (batchOpen s)) BatchNotOpen ;;
  _initIfNeeded encryptedAmount ;;
  _initIfNeeded encryptedMaturity ;;
  bondId <- checked_add (totalBonds s) 1 ;;
  modify (set_totalBonds bondId) ;;
  modify (fun s => set_bonds
            (<[bondId := mkBond encryptedAmount encryptedMaturity]> (bonds s)) s) ;;
  modify (fun s => write_batch_total (currentBatchId s)
            (FHE_add (totalEncryptedAmount (batch_at s (currentBatchId s)))
                     encryptedAmount) s) ;;
  s1 <- get ;;
  count <- checked_add (bondCount (batch_at s1 (currentBatchId s1))) 1 ;;
  modify (write_batch_count (currentBatchId s1) count) ;;
  modify (fun s => set_lastSubmissionTime
            (<[msg_sender env := block_timestamp env]> (lastSubmissionTime s)) s) ;;
  emit (BondSubmitted (msg_sender env) bondId (currentBatchId s1)).

(** *** Decryption request and callback *)

Definition _hashCiphertexts (cts : list bytes32) : bytes32 :=
  keccak256 (abi_encode_cts cts address_this).

(** The two-element list both [requestBatchDecryption] and [myCallback]
    build from a batch: the running total's handle and the bond count
    wrapped as a ciphertext. *)
Definition batch_cts (b : Batch) : list bytes32 :=
  [FHE_toBytes32 (totalEncryptedAmount b);
   FHE_toBytes32 (FHE_asEuint32 (bondCount b))].

Definition requestBatchDecryption (env : Env) (id : uint256) : M unit :=
  onlyOwner env ;;
  whenNotPaused ;;
  checkDecryptionCooldown env ;;
  s <- get ;;
  revert_if ((id =? 0) || (currentBatchId s <? id)
             || negb (finalized (batch_at s id))) InvalidBatch ;;
  let cts := batch_cts (batch_at s id) in
  let hash := _hashCiphertexts cts in
  let requestId := oracle_requestId env in
  modify (fun s => set_decryptionContexts
            (<[requestId := mkDecryptionContext id hash false]>
               (decryptionContexts s)) s) ;;
  modify (fun s => set_lastDecryptionRequestTime
            (<[msg_sender env := block_timestamp env]>
               (lastDecryptionRequestTime s)) s) ;;
  emit (DecryptionRequested requestId id).

Definition myCallback (requestId : uint256) (cleartexts proof : bytes)
  : M unit :=
  s <- get ;;
  revert_if (processed (context_at s requestId)) ReplayAttempt ;;
  let id := batchId (context_at s requestId) in
  let currentCts := batch_cts (batch_at s id) in
  let currentStateHash := _hashCiphertexts currentCts in
  revert_if (negb (currentStateHash =? stateHash (context_at s requestId)))
            StateMismatch ;;
  revert_if (negb (FHE_checkSignatures requestId cleartexts proof))
            InvalidProof ;;
  decoded <- abi_decode_uint32_uint32 cleartexts ;;
  let totalAmount := fst decoded in
  let count := snd decoded in
  modify (write_context_processed requestId true) ;;
  emit (DecryptionCompleted requestId id totalAmount count).

(** *** Transactions *)

Inductive Call :=
| Call_transferOwnership (newOwner : address)
| Call_addProvider (provider : address)
| Call_removeProvider (provider : address)
| Call_setCooldownSeconds (newCooldownSeconds : uint256)
| Call_pause
| Call_unpause
| Call_openBatch
| Call_closeBatch
| Call_submitBond (encryptedAmount encryptedMaturity : euint32)
| Call_requestBatchDecryption (id : uint256)
| Call_myCallback (requestId : uint256) (cleartexts proof : bytes).

Definition dispatch (env : Env) (c : Call) : M unit :=
  match c with
  | Call_transferOwnership a => transferOwnership env a
  | Call_addProvider a => addProvider env a
  | Call_removeProvider a => removeProvider env a
  | Call_setCooldownSeconds n => setCooldownSeconds env n
  | Call_pause => pause env
  | Call_unpause => unpause env
  | Call_openBatch => openBatch env
  | Call_closeBatch => closeBatch env
  | Call_submitBond a m => submitBond env a m
  | Call_requestBatchDecryption id => requestBatchDecryption env id
  | Call_myCallback r c p => myCallback r c p
  end.

(** One transaction: the state after it (unchanged when it reverts). *)
Definition exec_tx (s : State) (tx : Env * Call) : State :=
  match dispatch (fst tx) (snd tx) s with
  | Revert _ => s
  | Return _ s1 _ => s1
  end.

(** A sequence of transactions, in order. *)
Definition exec (s : State) (txs : list (Env * Call)) : State :=
  fold_left exec_tx txs s.

(** States the deployed contract can be in. *)
Definition reachable (s : State) : Prop :=
  exists deployer txs, s = exec (constructor deployer) txs.

(** The encrypted amounts of the [submitBond] calls of a run that succeeded
    while [id] was the current batch, oldest first. *)
Fixpoint submitted_into (id : uint256) (s : State) (txs : list (Env * Call))
  : list euint32 :=
  match txs with
  | [] => []
  | tx :: rest =>
      match dispatch (fst tx) (snd tx) s with
      | Revert _ => submitted_into id s rest
      | Return _ s1 _ =>
          match snd tx with
          | Call_submitBond a _ =>
              if currentBatchId s =? id
              then a :: submitted_into id s1 rest
              else submitted_into id s1 rest
          | _ => submitted_into id s1 rest
          end
      end
  end.

(** The request ids handed out to the [requestBatchDecryption] calls of a
    run that succeeded. *)
Fixpoint issued_ids (s : State) (txs : list (Env * Call)) : list uint256 :=
  match txs with
  | [] => []
  | tx :: rest =>
      match dispatch (fst tx) (snd tx) s with
      | Revert _ => issued_ids s rest
      | Return _ s1 _ =>
          match snd tx with
          | Call_requestBatchDecryption _ =>
              oracle_requestId (fst tx) :: issued_ids s1 rest
          | _ => issued_ids s1 rest
          end
      end
  end.

(** [submitBond] as the specification reads it, without the two
    initialization calls. *)
Definition submitBond_without_init
  (env : Env) (encryptedAmount encryptedMaturity : euint32) : M unit :=
  onlyProvider env ;;
  whenNotPaused ;;
  checkSubmissionCooldown env ;;
  s <- get ;;
  revert_if (negb (batchOpen s)) BatchNotOpen ;;
  bondId <- checked_add (totalBonds s) 1 ;;
  modify (set_totalBonds bondId) ;;
  modify (fun s => set_bonds
            (<[bondId := mkBond encryptedAmount encryptedMaturity]> (bonds s)) s) ;;
  modify (fun s => write_batch_total (currentBatchId s)
            (FHE_add (totalEncryptedAmount (batch_at s (currentBatchId s)))
                     encryptedAmount) s) ;;
  s1 <- get ;;
  count <- checked_add (bondCount (batch_at s1 (currentBatchId s1))) 1 ;;
  modify (write_batch_count (currentBatchId s1) count) ;;
  modify (fun s => set_lastSubmissionTime
            (<[msg_sender env := block_timestamp env]> (lastSubmissionTime s)) s) ;;
  emit (BondSubmitted (msg_sender env) bondId (currentBatchId s1)).

End Contract.


(** The part of a batch the reveal protocol commits to. *)
Definition aggregate (b : Batch) : uint256 * uint256 :=
  (totalEncryptedAmount b, bondCount b).

(** ** State invariants *)

(** Batch [id] has been allocated and is not the open one. *)
Definition closed_at (id : uint256) (s : State) : Prop :=
  id <= currentBatchId s /\ (currentBatchId s = id -> batchOpen s = false).

(** Batches beyond the current id, and batch 0, have never been written;
    an open batch has a non-zero id. *)
Definition fresh_above (s : State) : Prop :=
  (forall id, currentBatchId s < id -> batch_at s id = zero_batch)
  /\ (batchOpen s = true -> currentBatchId s <> 0)
  /\ batch_at s 0 = zero_batch.

(** ** Observations on runs *)

Section Observers.
Context {fhe : FHE} {evm : EVM}.

(** The transactions of a run that did not revert, oldest first. *)
Fixpoint succeeded (s : State) (txs : list (Env * Call)) : list (Env * Call) :=
  match txs with
  | [] => []
  | tx :: rest =>
      match dispatch (fst tx) (snd tx) s with
      | Revert _ => succeeded s rest
      | Return _ s1 _ => tx :: succeeded s1 rest
      end
  end.

(** Every stored decryption context names a batch that is allocated and not
    open (finalized, unless its id is 0) and holds the commitment hash of
    that batch as it is now. *)
Definition contexts_committed (s : State) : Prop :=
  forall requestId c,
    decryptionContexts s !! requestId = Some c ->
    closed_at (batchId c) s
    /\ stateHash c = _hashCiphertexts (batch_cts (batch_at s (batchId c)))
    /\ (batchId c <> 0 -> finalized (batch_at s (batchId c)) = true).

End Observers.

Definition is_openBatch (tx : Env * Call) : bool :=
  match snd tx with Call_openBatch => true | _ => false end.
Definition is_closeBatch (tx : Env * Call) : bool :=
  match snd tx with Call_closeBatch => true | _ => false end.
Definition is_submitBond (tx : Env * Call) : bool :=
  match snd tx with Call_submitBond _ _ => true | _ => false end.

(** How many transactions of a list satisfy a test. *)
Definition count_of (test : Env * Call -> bool) (txs : list (Env * Call)) : N :=
  N.of_nat (length (List.filter test txs)).

(** The batch lifecycle steps among some transactions: [true] for an
    [openBatch], [false] for a [closeBatch]. *)
Fixpoint lifecycle_steps (txs : list (Env * Call)) : list bool :=
  match txs with
  | [] => []
  | tx :: rest =>
      match snd tx with
      | Call_openBatch => true :: lifecycle_steps rest
      | Call_closeBatch => false :: lifecycle_steps rest
      | _ => lifecycle_steps rest
      end
  end.

(** [alternating b l]: each element of [l] is the opposite of the one before
    it, the first being the opposite of [b]. *)
Fixpoint alternating (b : bool) (l : list bool) : Prop :=
  match l with
  | [] => True
  | x :: rest => x = negb b /\ alternating x rest
  end.

(** Entry points guarded by [onlyOwner]. *)
Definition owner_only (c : Call) : bool :=
  match c with
  | Call_submitBond _ _ | Call_myCallback _ _ _ => false
  | _ => true
  end.

(** The bond counts of batches [1 .. n], added up. *)
Fixpoint sum_bondCount (s : State) (n : nat) : N :=
  match n with
  | O => 0
  | S m => sum_bondCount s m + bondCount (batch_at s (N.of_nat n))
  end.

(** Batches before the current one are finalized; the current one is
    finalized exactly when it is not open. *)
Definition lifecycle_inv (s : State) : Prop :=
  (forall id, 1 <= id -> id < currentBatchId s ->
              finalized (batch_at s id) = true)
  /\ (currentBatchId s <> 0 ->
      finalized (batch_at s (currentBatchId s)) = negb (batchOpen s)).

(** The bonds stored are those with ids [1 .. totalBonds]. *)
Definition ledger_inv (s : State) : Prop :=
  forall id, bonds s !! id = None <-> (id = 0 \/ totalBonds s < id).

(** ** Test doubles for the external capabilities

    Plaintext-tagged "ciphertexts": a handle is the plaintext itself, a proof
    is accepted when it is non-empty, and the hash is a polynomial rolling
    hash over the words. They serve to run the contract on concrete
    transactions. *)

Definition toy_FHE : FHE := {|
  FHE_add := fun a b => a + b;
  FHE_asEuint32 := fun n => n;
  FHE_toBytes32 := fun h => h;
  FHE_isInitialized := fun h => negb (h =? 0);
  FHE_checkSignatures := fun _ _ proof =>
    match proof with [] => false | _ :: _ => true end
|}.

Definition toy_EVM : EVM := {|
  keccak256 := fun ws =>
    fold_left (fun acc w => (acc * 1000003 + w + 1) mod 2 ^ 256) ws 7;
  address_this := 4660
|}.

(** A 32-byte big-endian word holding a small number. *)
Definition word_of_byte (b : Byte.byte) : bytes := repeat Byte.x00 31 ++ [b].

(** Concrete transactions used in the examples: account 1 deploys and owns
    the contract, account 2 is a provider. *)
Definition owner_env (t : uint256) (rid : uint256) : Env := mkEnv 1 t rid.
Definition provider_env (t : uint256) : Env := mkEnv 2 t 0.

Definition scenario_closed : list (Env * Call) :=
  [ (owner_env 100 0, Call_addProvider 2);
    (owner_env 100 0, Call_openBatch);
    (provider_env 200, Call_submitBond 100 7);
    (provider_env 300, Call_submitBond 250 9);
    (owner_env 400 0, Call_closeBatch) ].

Definition scenario_requested : list (Env * Call) :=
  scenario_closed ++ [ (owner_env 500 77, Call_requestBatchDecryption 1) ].

Definition cleartexts_350_2 : bytes :=
  repeat Byte.x00 30 ++ [Byte.x01; Byte.x5e] ++ word_of_byte Byte.x02.

(** The deployed contract after one batch with two bonds was closed. *)
Definition state_closed : State := @exec toy_FHE toy_EVM (constructor 1) scenario_closed.

(** ... after the owner requested its decryption under request id 77. *)
Definition state_requested : State := @exec toy_FHE toy_EVM (constructor 1) scenario_requested.

(** ... and after the owner then paused the contract. *)
Definition state_paused : State :=
  @exec toy_FHE toy_EVM (constructor 1) (scenario_requested ++ [(owner_env 600 0, Call_pause)]).

Definition oracle_env : Env := mkEnv 9 700 0.
Definition good_proof : bytes := [Byte.x01].

(** Transactions after the reveal: a replayed callback, another request
    (under a new request id) and a new batch with one bond. *)
Definition later_txs : list (Env * Call) :=
  [ (oracle_env, Call_myCallback 77 cleartexts_350_2 good_proof);
    (owner_env 800 78, Call_requestBatchDecryption 1);
    (owner_env 900 0, Call_openBatch);
    (provider_env 1000, Call_submitBond 40 3) ].

(** The state in which batch 1 has just been opened. *)
Definition state_before_open : State :=
  @exec toy_FHE toy_EVM (constructor 1) [(owner_env 100 0, Call_addProvider 2)].
Definition state_opened : State :=
  @exec_tx toy_FHE toy_EVM state_before_open (owner_env 100 0, Call_openBatch).
Definition txs_after_open : list (Env * Call) :=
  [ (provider_env 200, Call_submitBond 100 7);
    (provider_env 210, Call_submitBond 5 5);
    (provider_env 300, Call_submitBond 250 9);
    (owner_env 400 0, Call_closeBatch);
    (owner_env 900 0, Call_openBatch);
    (provider_env 1000, Call_submitBond 40 3) ].

(** The requested state with the stored total of batch 1 overwritten. *)
Definition state_tampered : State := write_batch_total 1 999 state_requested.

(** The state in which batch 1 is open with two bonds. *)
Definition state_before_close : State :=
  @exec toy_FHE toy_EVM (constructor 1)
    [ (owner_env 100 0, Call_addProvider 2);
      (owner_env 100 0, Call_openBatch);
      (provider_env 200, Call_submitBond 100 7);
      (provider_env 300, Call_submitBond 250 9) ].

(** Batch 1 open with one bond from account 2, after which the owner raised
    the cooldown to the largest 256-bit value. *)
Definition state_huge_cooldown : State :=
  @exec toy_FHE toy_EVM state_opened
    [ (provider_env 200, Call_submitBond 100 7);
      (owner_env 250 0, Call_setCooldownSeconds MAX_UINT256) ].

(** Batch 1 open with its first bond just submitted at time 200. *)
Definition state_one_bond : State :=
  @exec_tx toy_FHE toy_EVM state_opened (provider_env 200, Call_submitBond 100 7).

(** ** Proof support *)

Ltac unfold_monad :=
  unfold onlyOwner, onlyProvider, whenNotPaused, checkSubmissionCooldown,
    checkDecryptionCooldown, _initIfNeeded, abi_decode_uint32_uint32,
    checked_add, revert_if, bind, get, modify, emit, revert, ret in *.

Ltac unfold_calls :=
  unfold transferOwnership, addProvider, removeProvider, setCooldownSeconds,
    pause, unpause, openBatch, closeBatch, submitBond, submitBond_without_init,
    requestBatchDecryption, myCallback in *.

(** Case analysis on every guard of an unfolded call. *)
Ltac split_guards :=
  repeat match goal with
         | |- context [decode_uint32_uint32 ?c] =>
             destruct (decode_uint32_uint32 c) eqn:?; simpl
         | |- context [if ?c then _ else _] =>
             lazymatch type of c with
             | bool => destruct c eqn:?; simpl
             end
         end.

(** Unfold one transaction into the cases of its guards. *)
Ltac cases_of_tx c :=
  destruct c; simpl; unfold_calls; unfold_monad; simpl; split_guards; simpl.

(** Reads of a batch or context after the writes of a call. *)
Ltac read_mappings :=
  unfold write_batch_total, write_batch_count, write_batch_finalized,
    write_context_processed, batch_at, context_at in *;
  cbn in *; rewrite ?lookup_insert in *; repeat case_decide; subst; cbn in *.

(** Boolean tests on numbers, as propositions. *)
Ltac reflect_eqb :=
  repeat match goal with
         | H : (_ =? _) = true |- _ => apply N.eqb_eq in H
         | H : (_ =? _) = false |- _ => apply N.eqb_neq in H
         | H : (_ <=? _) = true |- _ => apply N.leb_le in H
         | H : (_ <=? _) = false |- _ => apply N.leb_gt in H
         | H : (_ <? _) = true |- _ => apply N.ltb_lt in H
         | H : (_ <? _) = false |- _ => apply N.ltb_ge in H
         | H : negb _ = true |- _ => apply negb_true_iff in H
         | H : negb _ = false |- _ => apply negb_false_iff in H
         end.

(** A disjunctive guard that did not fire, as its parts. *)
Ltac split_orb :=
  repeat match goal with
         | E : _ || _ = false |- _ =>
             apply orb_false_iff in E; destruct E
         end.

Section Lemmas.
Context {fhe : FHE} {evm : EVM}.

(** Two computations that start alike and continue alike are alike. *)
Lemma bind_ext {A B : Type} (m : M A) (k1 k2 : A -> M B) (s : State) :
  (forall a s1, k1 a s1 = k2 a s1) -> bind m k1 s = bind m k2 s.
Proof.
  intros Hk. unfold bind. destruct (m s) as [e | a s1 evs]; [done |].
  by rewrite Hk.
Qed.

Lemma exec_app (s : State) (txs1 txs2 : list (Env * Call)) :
  exec s (txs1 ++ txs2) = exec (exec s txs1) txs2.
Proof. unfold exec. apply fold_left_app. Qed.

Lemma reachable_exec (s : State) (txs : list (Env * Call)) :
  reachable s -> reachable (exec s txs).
Proof.
  intros (d & txs0 & ->). exists d, (txs0 ++ txs). by rewrite exec_app.
Qed.

(** *** A closed batch stays as it is *)

Lemma step_closed_batch (id : uint256) (s : State) (tx : Env * Call) :
  closed_at id s ->
  closed_at id (exec_tx s tx) /\ batch_at (exec_tx s tx) id = batch_at s id.
Proof.
  intros [Hle Hclosed]. destruct tx as [env c].
  unfold closed_at, exec_tx; simpl.
  cases_of_tx c; try (split; [split |]; (assumption || reflexivity)).
  all: read_mappings.
  all: try (specialize (Hclosed eq_refl); rewrite Hclosed in *; discriminate).
  all: split; [split |]; try lia; try reflexivity; intros; try lia; congruence.
Qed.

Lemma exec_closed_batch (id : uint256) (txs : list (Env * Call)) (s : State) :
  closed_at id s ->
  closed_at id (exec s txs) /\ batch_at (exec s txs) id = batch_at s id.
Proof.
  revert s. induction txs as [| tx txs IH]; intros s Hc; simpl; [done |].
  destruct (step_closed_batch id s tx Hc) as [Hc1 Heq].
  destruct (IH _ Hc1) as [Hc2 Heq2]. split; [done | congruence].
Qed.

(** *** Accounting of one batch *)

Lemma step_batch_accumulates (id : uint256) (s : State) (tx : Env * Call) :
  id <= currentBatchId s ->
  id <= currentBatchId (exec_tx s tx)
  /\ totalEncryptedAmount (batch_at (exec_tx s tx) id)
     = fold_left FHE_add (submitted_into id s [tx])
         (totalEncryptedAmount (batch_at s id))
  /\ bondCount (batch_at (exec_tx s tx) id)
     = bondCount (batch_at s id) + N.of_nat (length (submitted_into id s [tx])).
Proof.
  intros Hle. destruct tx as [env c].
  unfold exec_tx; simpl.
  cases_of_tx c; try (split; [assumption | split; [reflexivity | lia]]).
  all: read_mappings; reflect_eqb; try lia; try congruence.
  all: split; [lia | split; [reflexivity | lia]].
Qed.

Lemma submitted_into_cons (id : uint256) (s : State) (tx : Env * Call)
    (rest : list (Env * Call)) :
  submitted_into id s (tx :: rest)
  = submitted_into id s [tx] ++ submitted_into id (exec_tx s tx) rest.
Proof.
  unfold exec_tx; simpl.
  destruct (dispatch (fst tx) (snd tx) s) as [e | a s1 evs]; [done |].
  destruct (snd tx); try done.
  by destruct (currentBatchId s =? id).
Qed.

Lemma exec_batch_accumulates (id : uint256) (txs : list (Env * Call)) (s : State) :
  id <= currentBatchId s ->
  totalEncryptedAmount (batch_at (exec s txs) id)
  = fold_left FHE_add (submitted_into id s txs)
      (totalEncryptedAmount (batch_at s id))
  /\ bondCount (batch_at (exec s txs) id)
     = bondCount (batch_at s id) + N.of_nat (length (submitted_into id s txs)).
Proof.
  revert s. induction txs as [| tx txs IH]; intros s Hle.
  - simpl. split; [reflexivity | lia].
  - destruct (step_batch_accumulates id s tx Hle) as (Hle1 & Ht & Hc).
    destruct (IH _ Hle1) as [Ht2 Hc2].
    rewrite submitted_into_cons, fold_left_app, length_app.
    change (exec s (tx :: txs)) with (exec (exec_tx s tx) txs).
    rewrite Ht2, Hc2, Ht, Hc. split; [reflexivity | lia].
Qed.

(** *** Batch ids are handed out in order *)

Lemma fresh_above_constructor (deployer : address) :
  fresh_above (constructor deployer).
Proof. repeat split; done. Qed.

Lemma step_fresh_above (s : State) (tx : Env * Call) :
  fresh_above s -> fresh_above (exec_tx s tx).
Proof.
  intros (Ha & Hb & Hc). destruct tx as [env c].
  unfold fresh_above, exec_tx; simpl.
  cases_of_tx c; try (repeat split; assumption).
  all: reflect_eqb.
  all: repeat split; [intros id Hid | intros Hopen | ].
  all: read_mappings; try lia; try done.
  all: try (apply Ha; lia).
  all: try (exfalso; apply Hb; [done | lia]).
  all: try (exfalso; apply Hb; done).
  all: try congruence; apply Hb; (reflexivity || assumption).
Qed.

Lemma reachable_fresh_above (s : State) : reachable s -> fresh_above s.
Proof.
  intros (d & txs & ->).
  assert (Hgen : forall txs s0, fresh_above s0 -> fresh_above (exec s0 txs)).
  { clear. intros txs. induction txs as [| tx txs IH]; intros s0 Hs0; [done |].
    simpl. apply IH, step_fresh_above, Hs0. }
  apply Hgen, fresh_above_constructor.
Qed.

(** A transaction changes the aggregate of a batch only by a successful
    [submitBond] into that batch while it is the open one. *)
Lemma step_aggregate_change (id : uint256) (s : State) (tx : Env * Call) :
  fresh_above s ->
  aggregate (batch_at (exec_tx s tx) id) <> aggregate (batch_at s id) ->
  exists a m, snd tx = Call_submitBond a m
              /\ batchOpen s = true /\ currentBatchId s = id.
Proof.
  intros (Ha & Hb & Hc). destruct tx as [env c].
  unfold exec_tx, aggregate; simpl.
  cases_of_tx c; try (intros Hne; exfalso; apply Hne; reflexivity).
  all: reflect_eqb.
  all: read_mappings; try (intros Hne; exfalso; apply Hne; reflexivity).
  all: try (intros _; eauto; fail).
  intros Hne; exfalso; apply Hne. rewrite Ha by lia. reflexivity.
Qed.

(** *** Successful lifecycle calls *)

Lemma openBatch_Return (env : Env) (s s1 : State) (evs : list Event) :
  openBatch env s = Return tt s1 evs ->
  currentBatchId s1 = currentBatchId s + 1
  /\ batchOpen s1 = true
  /\ batch_at s1 (currentBatchId s1) = zero_batch.
Proof.
  unfold_calls; unfold_monad; simpl. split_guards; try discriminate.
  intros [= <- <-]. read_mappings; done.
Qed.

Lemma closeBatch_Return (env : Env) (s s1 : State) (evs : list Event) :
  closeBatch env s = Return tt s1 evs ->
  batchOpen s = true
  /\ closed_at (currentBatchId s) s1
  /\ finalized (batch_at s1 (currentBatchId s)) = true
  /\ aggregate (batch_at s1 (currentBatchId s))
     = aggregate (batch_at s (currentBatchId s)).
Proof.
  unfold_calls; unfold_monad; unfold closed_at, aggregate; simpl.
  split_guards; try discriminate.
  intros [= <- <-]. reflect_eqb.
  read_mappings; repeat split; (done || lia).
Qed.

(** *** The processed flag *)

Lemma myCallback_Return (requestId : uint256) (cleartexts proof : bytes)
    (s s1 : State) (evs : list Event) :
  myCallback requestId cleartexts proof s = Return tt s1 evs ->
  processed (context_at s requestId) = false
  /\ processed (context_at s1 requestId) = true.
Proof.
  unfold_calls; unfold_monad; simpl. split_guards; try discriminate.
  intros [= <- <-]. read_mappings; done.
Qed.

Lemma myCallback_processed (requestId : uint256) (cleartexts proof : bytes)
    (s : State) :
  processed (context_at s requestId) = true ->
  myCallback requestId cleartexts proof s = Revert ReplayAttempt.
Proof.
  intros Hp. unfold_calls; unfold_monad; simpl. by rewrite Hp.
Qed.

Lemma step_processed_sticky (requestId : uint256) (s : State) (tx : Env * Call) :
  processed (context_at s requestId) = true ->
  ~ In requestId (issued_ids s [tx]) ->
  processed (context_at (exec_tx s tx) requestId) = true.
Proof.
  intros Hp. destruct tx as [env c].
  unfold exec_tx; simpl.
  cases_of_tx c; try (intros _; assumption).
  all: read_mappings; try (intros _; done).
  intros Hnot. exfalso. apply Hnot. by left.
Qed.

Lemma issued_ids_cons (s : State) (tx : Env * Call) (rest : list (Env * Call)) :
  issued_ids s (tx :: rest)
  = issued_ids s [tx] ++ issued_ids (exec_tx s tx) rest.
Proof.
  unfold exec_tx; simpl.
  destruct (dispatch (fst tx) (snd tx) s) as [e | a s1 evs]; [done |].
  by destruct (snd tx).
Qed.

Lemma exec_processed_sticky (requestId : uint256) (txs : list (Env * Call))
    (s : State) :
  processed (context_at s requestId) = true ->
  ~ In requestId (issued_ids s txs) ->
  processed (context_at (exec s txs) requestId) = true.
Proof.
  revert s. induction txs as [| tx txs IH]; intros s Hp Hnot; [done |].
  rewrite issued_ids_cons in Hnot.
  change (exec s (tx :: txs)) with (exec (exec_tx s tx) txs).
  apply IH.
  - apply step_processed_sticky; [done |].
    intros Hin. apply Hnot, in_or_app. by left.
  - intros Hin. apply Hnot, in_or_app. by right.
Qed.

End Lemmas.

(** ** Properties of the protocol *)

Section Properties.
Context {fhe : FHE} {evm : EVM}.

(** C1. Replay protection. A [myCallback] call that completes finds the
    context of its request id unprocessed and leaves it processed; from then
    on, through any further transactions in which the oracle does not hand
    the same request id out again, every [myCallback] call for that id
    reverts with [ReplayAttempt], whatever cleartexts and proof it carries. *)
Theorem myCallback_succeeds_at_most_once
    (requestId : uint256) (cleartexts proof : bytes) (s s1 : State)
    (evs : list Event) :
  myCallback requestId cleartexts proof s = Return tt s1 evs ->
  processed (context_at s requestId) = false
  /\ processed (context_at s1 requestId) = true
  /\ forall txs : list (Env * Call),
       ~ In requestId (issued_ids s1 txs) ->
       processed (context_at (exec s1 txs) requestId) = true
       /\ forall cleartexts' proof',
            myCallback requestId cleartexts' proof' (exec s1 txs)
            = Revert ReplayAttempt.
Proof.
  intros Hok. destruct (myCallback_Return _ _ _ _ _ _ Hok) as [Hbefore Hafter].
  split; [exact Hbefore |]. split; [exact Hafter |].
  intros txs Hfresh.
  pose proof (exec_processed_sticky requestId txs s1 Hafter Hfresh) as Hp.
  split; [exact Hp |].
  intros c p. apply myCallback_processed, Hp.
Qed.

(** C2. Aggregate accounting. After [openBatch] has allocated a batch, and
    after any sequence of transactions, that batch's [bondCount] is the
    number of [submitBond] calls that succeeded into it and its
    [totalEncryptedAmount] is the left fold of [FHE.add], from the initial
    aggregate 0, over exactly the amounts those calls submitted, in order. *)
Theorem batch_aggregate_is_fold_of_submissions
    (env : Env) (s s1 : State) (evs : list Event) :
  openBatch env s = Return tt s1 evs ->
  forall txs : list (Env * Call),
    totalEncryptedAmount (batch_at (exec s1 txs) (currentBatchId s1))
    = fold_left FHE_add (submitted_into (currentBatchId s1) s1 txs) 0
    /\ bondCount (batch_at (exec s1 txs) (currentBatchId s1))
       = N.of_nat (length (submitted_into (currentBatchId s1) s1 txs)).
Proof.
  intros Hopen txs.
  destruct (openBatch_Return _ _ _ _ Hopen) as (_ & _ & Hzero).
  destruct (exec_batch_accumulates (currentBatchId s1) txs s1 (N.le_refl _))
    as [Ht Hc].
  rewrite Ht, Hc, Hzero. simpl. split; [reflexivity | lia].
Qed.

Lemma abi_encode_cts_inj (cts1 cts2 : list bytes32) (a : address) :
  abi_encode_cts cts1 a = abi_encode_cts cts2 a -> cts1 = cts2.
Proof. unfold abi_encode_cts. simpl. by intros [= _ ->]. Qed.

Lemma requestBatchDecryption_Return (env : Env) (id : uint256) (s s1 : State)
    (evs : list Event) :
  requestBatchDecryption env id s = Return tt s1 evs ->
  context_at s1 (oracle_requestId env)
  = mkDecryptionContext id (_hashCiphertexts (batch_cts (batch_at s id))) false
  /\ batch_at s1 id = batch_at s id
  /\ evs = [DecryptionRequested (oracle_requestId env) id].
Proof.
  unfold_calls; unfold_monad; simpl. split_guards; try discriminate.
  intros [= <- <-]. read_mappings; done.
Qed.

(** C3. State commitment. After a successful [requestBatchDecryption] for a
    batch, take any later state in which the stored context of the request is
    still the one written by the request. If the batch's aggregate (total
    handle or bond count) differs from the one committed to, then, the
    commitment being collision-free on the two snapshots ([keccak256] does
    not collide on the two encodings and the two handle conversions are
    injective on the values involved), [myCallback] reverts with
    [StateMismatch]. If the aggregate is the same, the recomputed hash equals
    the stored [stateHash] and the call does not revert with
    [StateMismatch]. *)
Theorem myCallback_detects_mutated_batch
    (env : Env) (id : uint256) (s s1 s2 : State) (evs : list Event)
    (cleartexts proof : bytes) :
  requestBatchDecryption env id s = Return tt s1 evs ->
  context_at s2 (oracle_requestId env) = context_at s1 (oracle_requestId env) ->
  (aggregate (batch_at s2 id) <> aggregate (batch_at s1 id) ->
   (keccak256 (abi_encode_cts (batch_cts (batch_at s2 id)) address_this)
    = keccak256 (abi_encode_cts (batch_cts (batch_at s1 id)) address_this) ->
    abi_encode_cts (batch_cts (batch_at s2 id)) address_this
    = abi_encode_cts (batch_cts (batch_at s1 id)) address_this) ->
   (forall h1 h2, FHE_toBytes32 h1 = FHE_toBytes32 h2 -> h1 = h2) ->
   (FHE_asEuint32 (bondCount (batch_at s2 id))
    = FHE_asEuint32 (bondCount (batch_at s1 id)) ->
    bondCount (batch_at s2 id) = bondCount (batch_at s1 id)) ->
   myCallback (oracle_requestId env) cleartexts proof s2 = Revert StateMismatch)
  /\ (aggregate (batch_at s2 id) = aggregate (batch_at s1 id) ->
      _hashCiphertexts (batch_cts (batch_at s2 id))
      = stateHash (context_at s2 (oracle_requestId env))
      /\ myCallback (oracle_requestId env) cleartexts proof s2
         <> Revert StateMismatch).
Proof.
  intros Hreq Hctx.
  destruct (requestBatchDecryption_Return _ _ _ _ _ Hreq) as (Hc & Hb & _).
  rewrite Hc in Hctx. rewrite Hb in *.
  split.
  - intros Hne Hkeccak Hbytes Henc.
    unfold myCallback; unfold_monad. rewrite Hctx; simpl.
    destruct (N.eqb_spec (_hashCiphertexts (batch_cts (batch_at s2 id)))
                (_hashCiphertexts (batch_cts (batch_at s id)))) as [Heq | Hdiff];
      [| reflexivity].
    exfalso. apply Hne.
    apply Hkeccak, abi_encode_cts_inj in Heq.
    unfold batch_cts in Heq. injection Heq as Ht Hn.
    apply Hbytes in Ht. apply Hbytes, Henc in Hn.
    unfold aggregate. congruence.
  - intros Hsame.
    assert (Hcts : batch_cts (batch_at s2 id) = batch_cts (batch_at s id)).
    { unfold aggregate in Hsame. injection Hsame as Ht Hn.
      unfold batch_cts. by rewrite Ht, Hn. }
    rewrite Hctx; simpl. split; [by rewrite Hcts |].
    unfold myCallback; unfold_monad. rewrite Hctx; simpl.
    rewrite Hcts, N.eqb_refl; simpl.
    destruct (FHE_checkSignatures _ _ _); simpl; [| discriminate].
    destruct (decode_uint32_uint32 cleartexts); simpl; discriminate.
Qed.

(** C4. Invalid proof. When the context is unprocessed and the recomputed
    hash matches the stored one but [FHE.checkSignatures] rejects the proof,
    [myCallback] reverts with [InvalidProof]; the transaction leaves the
    state as it was, and the context is still unprocessed. *)
Theorem myCallback_invalid_proof
    (requestId : uint256) (cleartexts proof : bytes) (s : State) :
  processed (context_at s requestId) = false ->
  _hashCiphertexts (batch_cts (batch_at s (batchId (context_at s requestId))))
  = stateHash (context_at s requestId) ->
  FHE_checkSignatures requestId cleartexts proof = false ->
  myCallback requestId cleartexts proof s = Revert InvalidProof
  /\ forall env : Env,
       exec_tx s (env, Call_myCallback requestId cleartexts proof) = s
       /\ processed
            (context_at
               (exec_tx s (env, Call_myCallback requestId cleartexts proof))
               requestId) = false.
Proof.
  intros Hp Hh Hsig.
  assert (Hrev : myCallback requestId cleartexts proof s = Revert InvalidProof).
  { unfold myCallback; unfold_monad.
    rewrite Hp, Hh, N.eqb_refl, Hsig. reflexivity. }
  split; [exact Hrev |].
  intros env. unfold exec_tx; simpl. rewrite Hrev. by split.
Qed.

(** C5. Order of the callback's checks. [myCallback] tests, in this order
    and stopping at the first failure: the processed flag ([ReplayAttempt]),
    the recomputed state hash ([StateMismatch]), the proof ([InvalidProof]).
    When all three pass it decodes the cleartexts as two 32-bit unsigned
    integers; a successful decode yields a state that differs from the
    initial one only in the context's processed flag, now true, and exactly
    one event, [DecryptionCompleted] with the request id, the batch id and
    the two decoded numbers; cleartexts that do not decode make the call
    revert. *)
Theorem myCallback_check_order
    (requestId : uint256) (cleartexts proof : bytes) (s : State) :
  let c := context_at s requestId in
  let h := _hashCiphertexts (batch_cts (batch_at s (batchId c))) in
  (processed c = true ->
   myCallback requestId cleartexts proof s = Revert ReplayAttempt)
  /\ (processed c = false -> h <> stateHash c ->
      myCallback requestId cleartexts proof s = Revert StateMismatch)
  /\ (processed c = false -> h = stateHash c ->
      FHE_checkSignatures requestId cleartexts proof = false ->
      myCallback requestId cleartexts proof s = Revert InvalidProof)
  /\ (processed c = false -> h = stateHash c ->
      FHE_checkSignatures requestId cleartexts proof = true ->
      match decode_uint32_uint32 cleartexts with
      | Some (totalAmount, count) =>
          totalAmount = be_value (word_at 0 cleartexts)
          /\ count = be_value (word_at 1 cleartexts)
          /\ totalAmount <= MAX_UINT32 /\ count <= MAX_UINT32
          /\ myCallback requestId cleartexts proof s
             = Return tt (write_context_processed requestId true s)
                 [DecryptionCompleted requestId (batchId c) totalAmount count]
      | None =>
          myCallback requestId cleartexts proof s = Revert AbiDecodeFailure
      end).
Proof.
  intros c h. subst c h. repeat split.
  - apply myCallback_processed.
  - intros Hp Hh. unfold myCallback; unfold_monad. rewrite Hp; simpl.
    apply N.eqb_neq in Hh. by rewrite Hh.
  - intros Hp Hh Hsig. unfold myCallback; unfold_monad.
    rewrite Hp, Hh, N.eqb_refl, Hsig. reflexivity.
  - intros Hp Hh Hsig.
    unfold myCallback; unfold_monad.
    rewrite Hp, Hh, N.eqb_refl, Hsig; simpl.
    destruct (decode_uint32_uint32 cleartexts) as [[t n] |] eqn:Hdec;
      simpl; [| reflexivity].
    unfold decode_uint32_uint32 in Hdec.
    destruct (length cleartexts <? 64)%nat; [discriminate |].
    destruct (be_value (word_at 0 cleartexts) <=? MAX_UINT32) eqn:H0;
      [| discriminate].
    destruct (be_value (word_at 1 cleartexts) <=? MAX_UINT32) eqn:H1;
      [| discriminate].
    simpl in Hdec. injection Hdec as <- <-.
    apply N.leb_le in H0, H1. done.
Qed.

(** C6. Batch validation of a request. For a call by the owner, with the
    contract not paused and the caller's decryption cooldown elapsed at a
    block timestamp that is a 256-bit number, [requestBatchDecryption]
    reverts with [InvalidBatch] exactly when the batch id is 0, exceeds
    [currentBatchId], or names a batch that is not finalized; otherwise it
    succeeds and stores, under the request id the oracle returned, a context
    holding the batch id, the commitment hash and [processed = false]. *)
Theorem requestBatchDecryption_InvalidBatch_iff
    (env : Env) (id : uint256) (s : State) :
  msg_sender env = owner s ->
  paused s = false ->
  block_timestamp env <= MAX_UINT256 ->
  lastDecryptionRequestTime_at s (msg_sender env) + cooldownSeconds s
  <= block_timestamp env ->
  (requestBatchDecryption env id s = Revert InvalidBatch
   <-> (id = 0 \/ currentBatchId s < id \/ finalized (batch_at s id) = false))
  /\ (~ (id = 0 \/ currentBatchId s < id \/ finalized (batch_at s id) = false) ->
      exists s1,
        requestBatchDecryption env id s
        = Return tt s1 [DecryptionRequested (oracle_requestId env) id]
        /\ decryptionContexts s1 !! oracle_requestId env
           = Some (mkDecryptionContext id
                     (_hashCiphertexts (batch_cts (batch_at s id))) false)
        /\ processed (context_at s1 (oracle_requestId env)) = false).
Proof.
  intros Hown Hnp Hts Hcool.
  unfold requestBatchDecryption; unfold_monad.
  rewrite Hown, N.eqb_refl; simpl. rewrite Hnp; simpl.
  destruct (N.leb_spec
              (lastDecryptionRequestTime_at s (owner s) + cooldownSeconds s)
              MAX_UINT256) as [_ | Hover]; [| rewrite Hown in Hcool; lia].
  simpl.
  destruct (N.ltb_spec (block_timestamp env)
              (lastDecryptionRequestTime_at s (owner s) + cooldownSeconds s))
    as [Hlt | _]; [rewrite Hown in Hcool; lia |].
  simpl.
  destruct (N.eqb_spec id 0) as [Hz | Hnz]; simpl.
  { split; [split; [intros _; by left | reflexivity] |].
    intros Hnot. exfalso. apply Hnot. by left. }
  destruct (N.ltb_spec (currentBatchId s) id) as [Hgt | Hle]; simpl.
  { split; [split; [intros _; right; by left | reflexivity] |].
    intros Hnot. exfalso. apply Hnot. right; by left. }
  destruct (finalized (batch_at s id)) eqn:Hfin; simpl.
  - split.
    + split; [discriminate |]. intros [Hz | [Hgt | Hf]]; [done | lia | done].
    + intros _. eexists. split; [reflexivity |].
      unfold context_at; simpl. by rewrite lookup_insert_eq.
  - split; [split; [intros _; right; by right | reflexivity] |].
    intros Hnot. exfalso. apply Hnot. right; by right.
Qed.

(** C7. A finalized batch is frozen. Once [closeBatch] has succeeded on a
    reachable state, the closed batch is finalized and, after any further
    sequence of transactions: the batch record is unchanged (total, count
    and finalized flag); the batch is not open again; a successful
    [openBatch] moves to a strictly larger id and leaves the closed batch
    untouched; and any transaction that changes the aggregate of any batch
    is a [submitBond] executed while that batch is the open one. *)
Theorem finalized_batch_is_immutable
    (env : Env) (s s1 : State) (evs : list Event) :
  reachable s ->
  closeBatch env s = Return tt s1 evs ->
  finalized (batch_at s1 (currentBatchId s)) = true
  /\ forall txs : list (Env * Call),
       batch_at (exec s1 txs) (currentBatchId s)
       = batch_at s1 (currentBatchId s)
       /\ currentBatchId s <= currentBatchId (exec s1 txs)
       /\ (currentBatchId (exec s1 txs) = currentBatchId s ->
           batchOpen (exec s1 txs) = false)
       /\ (forall env' s2 evs',
             openBatch env' (exec s1 txs) = Return tt s2 evs' ->
             currentBatchId s < currentBatchId s2
             /\ batch_at s2 (currentBatchId s)
                = batch_at s1 (currentBatchId s))
       /\ (forall (tx : Env * Call) (id : uint256),
             aggregate (batch_at (exec_tx (exec s1 txs) tx) id)
             <> aggregate (batch_at (exec s1 txs) id) ->
             exists a m, snd tx = Call_submitBond a m
                         /\ batchOpen (exec s1 txs) = true
                         /\ currentBatchId (exec s1 txs) = id).
Proof.
  intros Hreach Hclose.
  destruct (closeBatch_Return _ _ _ _ Hclose) as (_ & Hclosed & Hfin & _).
  split; [exact Hfin |]. intros txs.
  destruct (exec_closed_batch _ txs s1 Hclosed) as [[Hle Hnot] Hsame].
  repeat split; try assumption.
  - destruct (openBatch_Return _ _ _ _ H) as (Hcur & _). lia.
  - assert (Hs2 : s2 = exec s1 (txs ++ [(env', Call_openBatch)])).
    { rewrite exec_app. simpl. unfold exec_tx; simpl. by rewrite H. }
    rewrite Hs2. apply exec_closed_batch, Hclosed.
  - intros tx id. apply step_aggregate_change, reachable_fresh_above.
    apply reachable_exec.
    assert (Hs1 : s1 = exec s [(env, Call_closeBatch)]).
    { simpl. unfold exec_tx; simpl. by rewrite Hclose. }
    rewrite Hs1. by apply reachable_exec.
Qed.

(** C9. The initialization helper is inert. [_initIfNeeded] returns without
    touching the state or emitting an event, and [submitBond] has, on every
    input and state, the same outcome (revert and error, or resulting state
    and events) as the same function without its two [_initIfNeeded]
    calls. *)
Theorem initIfNeeded_is_noop
    (env : Env) (encryptedAmount encryptedMaturity : euint32) (s : State) :
  _initIfNeeded encryptedAmount s = Return tt s []
  /\ submitBond env encryptedAmount encryptedMaturity s
     = submitBond_without_init env encryptedAmount encryptedMaturity s.
Proof.
  assert (Hnoop : forall v s0, _initIfNeeded v s0 = Return tt s0 []).
  { intros v s0. unfold _initIfNeeded.
    by destruct (negb (FHE_isInitialized v)). }
  split; [apply Hnoop |].
  assert (Hskip : forall v (k : unit -> M unit) s0,
             bind (_initIfNeeded v) k s0 = k tt s0).
  { intros v k s0. unfold bind. rewrite Hnoop.
    by destruct (k tt s0). }
  unfold submitBond, submitBond_without_init.
  do 5 (apply bind_ext; intros ? ?).
  by rewrite !Hskip.
Qed.

(** C10. Forged callbacks. In a reachable state, a request id under which
    nothing was ever stored reads as the zero context (batch id 0, zero
    hash, unprocessed) and batch 0 is the zero batch; so, provided the
    commitment hash of the zero batch's ciphertext list is not the zero
    word, [myCallback] for that id reverts with [StateMismatch], without
    consulting the proof. *)
Theorem myCallback_unknown_request_rejected
    (requestId : uint256) (cleartexts proof : bytes) (s : State) :
  reachable s ->
  decryptionContexts s !! requestId = None ->
  _hashCiphertexts (batch_cts zero_batch) <> 0 ->
  context_at s requestId = zero_context
  /\ batch_at s 0 = zero_batch
  /\ myCallback requestId cleartexts proof s = Revert StateMismatch.
Proof.
  intros Hreach Hnone Hhash.
  destruct (reachable_fresh_above s Hreach) as (_ & _ & Hzero).
  assert (Hctx : context_at s requestId = zero_context).
  { unfold context_at. by rewrite Hnone. }
  repeat split; try assumption.
  unfold myCallback; unfold_monad. rewrite Hctx; simpl. rewrite Hzero.
  apply N.eqb_neq in Hhash. by rewrite Hhash.
Qed.

(** C8, as the code has it. On a paused contract: [openBatch], [closeBatch],
    [requestBatchDecryption] and [pause] called by the owner, and
    [submitBond] called by a registered provider, revert with [PausedState];
    for any caller these four batch and request entry points leave the state
    unchanged; [unpause], [transferOwnership], [addProvider],
    [removeProvider] and [setCooldownSeconds] with a non-zero value succeed
    for the owner; and [myCallback], which carries no pause gate, has the
    outcome it has on the same state with the pause flag cleared. *)
Theorem paused_contract_gates (env : Env) (s : State) :
  paused s = true ->
  (msg_sender env = owner s ->
   openBatch env s = Revert PausedState
   /\ closeBatch env s = Revert PausedState
   /\ (forall id, requestBatchDecryption env id s = Revert PausedState)
   /\ pause env s = Revert PausedState)
  /\ (providers_at s (msg_sender env) = true ->
      forall a m, submitBond env a m s = Revert PausedState)
  /\ (exec_tx s (env, Call_openBatch) = s
      /\ exec_tx s (env, Call_closeBatch) = s
      /\ (forall a m, exec_tx s (env, Call_submitBond a m) = s)
      /\ (forall id, exec_tx s (env, Call_requestBatchDecryption id) = s))
  /\ (msg_sender env = owner s ->
      unpause env s = Return tt (set_paused false s) [Unpaused (msg_sender env)]
      /\ (forall a, transferOwnership env a s
                    = Return tt (set_owner a s) [OwnershipTransferred (owner s) a])
      /\ (forall a, addProvider env a s
                    = Return tt (set_providers (<[a := true]> (providers s)) s)
                        [ProviderAdded a])
      /\ (forall a, removeProvider env a s
                    = Return tt (set_providers (<[a := false]> (providers s)) s)
                        [ProviderRemoved a])
      /\ (forall n, n <> 0 ->
                    setCooldownSeconds env n s
                    = Return tt (set_cooldownSeconds n s)
                        [CooldownSecondsChanged (cooldownSeconds s) n]))
  /\ (forall requestId cleartexts proof,
        myCallback requestId cleartexts proof s
        = match myCallback requestId cleartexts proof (set_paused false s) with
          | Revert e => Revert e
          | Return a s1 evs => Return a (set_paused true s1) evs
          end).
Proof.
  intros Hp. split; [| split; [| split; [| split]]].
  - intros Hown. repeat split; intros;
      unfold_calls; unfold_monad; rewrite Hown, N.eqb_refl; simpl;
      by rewrite Hp.
  - intros Hprov a m. unfold_calls; unfold_monad. rewrite Hprov; simpl.
    by rewrite Hp.
  - repeat split; intros; unfold exec_tx; simpl;
      unfold_calls; unfold_monad;
      [ destruct (negb (msg_sender env =? owner s))
      | destruct (negb (msg_sender env =? owner s))
      | destruct (negb (providers_at s (msg_sender env)))
      | destruct (negb (msg_sender env =? owner s)) ];
      simpl; try reflexivity; by rewrite Hp.
  - intros Hown. repeat split; intros;
      unfold_calls; unfold_monad; rewrite Hown, N.eqb_refl; simpl;
      try reflexivity.
    apply N.eqb_neq in H. by rewrite H.
  - intros requestId cleartexts proof.
    destruct s; simpl in Hp; subst.
    unfold_calls; unfold_monad; unfold context_at, batch_at; simpl.
    split_guards; reflexivity.
Qed.

End Properties.

(** ** Further properties: lifecycle, ledger, access control, cooldowns *)

Section Further.
Context {fhe : FHE} {evm : EVM}.

(** *** Runs and the batch lifecycle *)

Lemma succeeded_cons (s : State) (tx : Env * Call) (rest : list (Env * Call)) :
  succeeded s (tx :: rest) = succeeded s [tx] ++ succeeded (exec_tx s tx) rest.
Proof.
  unfold exec_tx; simpl.
  by destruct (dispatch (fst tx) (snd tx) s) as [e | a s1 evs].
Qed.

Lemma step_lifecycle (s : State) (tx : Env * Call) :
  alternating (batchOpen s) (lifecycle_steps (succeeded s [tx]))
  /\ batchOpen (exec_tx s tx)
     = List.last (lifecycle_steps (succeeded s [tx])) (batchOpen s)
  /\ currentBatchId (exec_tx s tx)
     = currentBatchId s + count_of is_openBatch (succeeded s [tx])
  /\ totalBonds (exec_tx s tx)
     = totalBonds s + count_of is_submitBond (succeeded s [tx]).
Proof.
  destruct tx as [env c]. unfold exec_tx, count_of; simpl.
  cases_of_tx c; reflect_eqb; repeat split; try done; try lia.
  all: try (by destruct (batchOpen s)).
Qed.

Lemma lifecycle_steps_app (l1 l2 : list (Env * Call)) :
  lifecycle_steps (l1 ++ l2) = lifecycle_steps l1 ++ lifecycle_steps l2.
Proof.
  induction l1 as [| tx l1 IH]; simpl; [done |].
  destruct (snd tx); simpl; by rewrite ?IH.
Qed.

Lemma last_nonempty_default (l : list bool) (y b1 b2 : bool) :
  List.last (y :: l) b1 = List.last (y :: l) b2.
Proof.
  revert y. induction l as [| z l IH]; intros y; [done |].
  change (List.last (z :: l) b1 = List.last (z :: l) b2). apply IH.
Qed.

Lemma last_cons_shift (l : list bool) (x b : bool) :
  List.last (x :: l) b = List.last l x.
Proof.
  destruct l as [| y l]; [done |].
  change (List.last (y :: l) b = List.last (y :: l) x).
  apply last_nonempty_default.
Qed.

Lemma alternating_app (b : bool) (l1 l2 : list bool) :
  alternating b l1 -> alternating (List.last l1 b) l2 ->
  alternating b (l1 ++ l2).
Proof.
  revert b. induction l1 as [| x l1 IH]; intros b H1 H2; [done |].
  destruct H1 as [Hx H1]. split; [done |]. apply IH; [done |].
  by rewrite <- (last_cons_shift l1 x b).
Qed.

Lemma last_app_default (b : bool) (l1 l2 : list bool) :
  List.last (l1 ++ l2) b = List.last l2 (List.last l1 b).
Proof.
  revert b. induction l1 as [| x l1 IH]; intros b; [done |].
  rewrite <- app_comm_cons, !last_cons_shift. apply IH.
Qed.

Lemma count_of_app (test : Env * Call -> bool) (l1 l2 : list (Env * Call)) :
  count_of test (l1 ++ l2) = count_of test l1 + count_of test l2.
Proof. unfold count_of. rewrite List.filter_app, length_app. lia. Qed.

Lemma exec_lifecycle (txs : list (Env * Call)) (s : State) :
  alternating (batchOpen s) (lifecycle_steps (succeeded s txs))
  /\ batchOpen (exec s txs)
     = List.last (lifecycle_steps (succeeded s txs)) (batchOpen s)
  /\ currentBatchId (exec s txs)
     = currentBatchId s + count_of is_openBatch (succeeded s txs)
  /\ totalBonds (exec s txs)
     = totalBonds s + count_of is_submitBond (succeeded s txs).
Proof.
  revert s. induction txs as [| tx txs IH]; intros s.
  - simpl. unfold count_of; simpl. repeat split; lia.
  - destruct (step_lifecycle s tx) as (Ha & Hb & Hc & Hd).
    destruct (IH (exec_tx s tx)) as (Ha2 & Hb2 & Hc2 & Hd2).
    rewrite succeeded_cons, lifecycle_steps_app, !count_of_app.
    change (exec s (tx :: txs)) with (exec (exec_tx s tx) txs).
    rewrite Hb2, Hc2, Hd2, Hb, Hc, Hd, last_app_default.
    repeat split; try lia.
    apply alternating_app; [done |]. by rewrite <- Hb.
Qed.

Lemma step_lifecycle_inv (s : State) (tx : Env * Call) :
  fresh_above s -> lifecycle_inv s -> lifecycle_inv (exec_tx s tx).
Proof.
  intros (Ha & Hb & Hc) (Hold & Hcur). destruct tx as [env c].
  unfold lifecycle_inv, exec_tx; simpl.
  cases_of_tx c; try (split; assumption).
  all: reflect_eqb.
  all: split; [intros id Hid1 Hid2 | intros Hnz].
  all: read_mappings; try lia; try done.
  all: try (apply Hold; lia).
  all: try (repeat match goal with
                   | E : batchOpen _ = _ |- _ => rewrite E in *
                   end; simpl in *; auto; fail).
  destruct (N.eq_dec id (currentBatchId s)) as [-> | Hne];
    [apply Hcur; lia | apply Hold; lia].
Qed.

Lemma lifecycle_inv_constructor (deployer : address) :
  lifecycle_inv (constructor deployer).
Proof. split; [intros id H1 H2; simpl in *; lia | simpl; done]. Qed.

Lemma reachable_lifecycle_inv (s : State) :
  reachable s -> fresh_above s /\ lifecycle_inv s.
Proof.
  intros (d & txs & ->).
  assert (Hgen : forall txs s0, fresh_above s0 /\ lifecycle_inv s0 ->
                   fresh_above (exec s0 txs) /\ lifecycle_inv (exec s0 txs)).
  { clear. intros txs. induction txs as [| tx txs IH]; intros s0 Hs0; [done |].
    simpl. apply IH. destruct Hs0 as [Hf Hl].
    split; [by apply step_fresh_above | by apply step_lifecycle_inv]. }
  apply Hgen. split; [apply fresh_above_constructor |
                      apply lifecycle_inv_constructor].
Qed.

(** Where a stored context comes from: it was there before (up to its
    processed flag), or a request just wrote it, or a callback that passed
    all checks on an id never stored before just wrote it. *)
Lemma step_context_origin (s : State) (tx : Env * Call) (requestId : uint256)
    (c : DecryptionContext) :
  decryptionContexts (exec_tx s tx) !! requestId = Some c ->
  (exists c0, decryptionContexts s !! requestId = Some c0
              /\ batchId c = batchId c0 /\ stateHash c = stateHash c0)
  \/ (1 <= batchId c /\ batchId c <= currentBatchId s
      /\ finalized (batch_at s (batchId c)) = true
      /\ stateHash c = _hashCiphertexts (batch_cts (batch_at s (batchId c))))
  \/ (batchId c = 0
      /\ stateHash c = _hashCiphertexts (batch_cts (batch_at s 0))).
Proof.
  destruct tx as [env t]. unfold exec_tx; simpl.
  cases_of_tx t; try (intros Hl; left; exists c; done).
  all: split_orb; reflect_eqb.
  - (* requestBatchDecryption *)
    rewrite lookup_insert. case_decide as Hid.
    + intros [= <-]. simpl. right; left. repeat split; (done || lia).
    + intros Hl; left; exists c; done.
  - (* myCallback *)
    unfold write_context_processed, context_at in *; simpl in *.
    rewrite lookup_insert. case_decide as Hid; [| intros Hl; left; by exists c].
    subst. intros [= <-]; simpl.
    destruct (decryptionContexts s !! requestId) as [c0 |] eqn:Hc0; simpl in *.
    + left. by exists c0.
    + right; right. split; [done |]. symmetry. assumption.
Qed.

Lemma step_contexts_committed (s : State) (tx : Env * Call) :
  fresh_above s -> lifecycle_inv s -> contexts_committed s ->
  contexts_committed (exec_tx s tx).
Proof.
  intros (Ha & Hb & Hc) (Hold & Hcur) Hctx requestId c Hl.
  assert (Hclosed : closed_at (batchId c) s
                    /\ stateHash c
                       = _hashCiphertexts (batch_cts (batch_at s (batchId c)))
                    /\ (batchId c <> 0 ->
                        finalized (batch_at s (batchId c)) = true)).
  { destruct (step_context_origin s tx requestId c Hl)
      as [(c0 & Hl0 & Hb0 & Hh0) | [(H1 & H2 & H3 & H4) | (H0 & Hh)]].
    - rewrite Hb0, Hh0. by apply (Hctx requestId).
    - repeat split; try done. intros Heq. rewrite Heq in Hcur.
      rewrite Hcur in H3 by lia. by destruct (batchOpen s).
    - rewrite H0. repeat split; try done; try lia.
      intros Hz. destruct (batchOpen s); [| done]. exfalso. by apply Hb. }
  destruct Hclosed as (Hcl & Hh & Hf).
  destruct (step_closed_batch _ s tx Hcl) as [Hcl1 Hsame].
  rewrite Hsame. done.
Qed.

Lemma reachable_contexts_committed (s : State) :
  reachable s -> contexts_committed s.
Proof.
  intros (d & txs & ->).
  assert (Hgen : forall txs s0,
             fresh_above s0 /\ lifecycle_inv s0 /\ contexts_committed s0 ->
             contexts_committed (exec s0 txs)).
  { clear. intros txs. induction txs as [| tx txs IH]; intros s0 Hs0.
    - apply Hs0.
    - simpl. apply IH. destruct Hs0 as (Hf & Hl & Hc).
      split; [by apply step_fresh_above |].
      split; [by apply step_lifecycle_inv | by apply step_contexts_committed]. }
  apply Hgen. split; [apply fresh_above_constructor |].
  split; [apply lifecycle_inv_constructor |].
  intros requestId c Hl. simpl in Hl. by rewrite lookup_empty in Hl.
Qed.
(** *** The bond ledger *)

Lemma step_ledger_inv (s : State) (tx : Env * Call) :
  ledger_inv s -> ledger_inv (exec_tx s tx).
Proof.
  intros Hinv. destruct tx as [env c]. unfold ledger_inv, exec_tx; simpl.
  cases_of_tx c; try assumption.
  all: reflect_eqb; intros id; rewrite lookup_insert; case_decide; subst.
  all: try (split; [discriminate | lia]).
  all: rewrite (Hinv id); lia.
Qed.

Lemma step_bond_kept (s : State) (tx : Env * Call) (id : uint256) :
  id <= totalBonds s ->
  id <= totalBonds (exec_tx s tx)
  /\ bonds (exec_tx s tx) !! id = bonds s !! id.
Proof.
  intros Hle. destruct tx as [env c]. unfold exec_tx; simpl.
  cases_of_tx c; try (split; [assumption | reflexivity]).
  all: reflect_eqb; split; [lia |].
  all: rewrite lookup_insert_ne by lia; reflexivity.
Qed.

Lemma exec_bond_kept (txs : list (Env * Call)) (s : State) (id : uint256) :
  id <= totalBonds s ->
  id <= totalBonds (exec s txs) /\ bonds (exec s txs) !! id = bonds s !! id.
Proof.
  revert s. induction txs as [| tx txs IH]; intros s Hle; [done |].
  destruct (step_bond_kept s tx id Hle) as [Hle1 Heq].
  destruct (IH _ Hle1) as [Hle2 Heq2]. simpl. split; [done | congruence].
Qed.


(** *** Bond counts add up *)

Lemma sum_bondCount_same (s s1 : State) (n : nat) :
  (forall i : nat, (1 <= i <= n)%nat ->
     bondCount (batch_at s1 (N.of_nat i)) = bondCount (batch_at s (N.of_nat i))) ->
  sum_bondCount s1 n = sum_bondCount s n.
Proof.
  induction n as [| n IH]; intros Hsame; [done |].
  cbn [sum_bondCount]. rewrite IH, Hsame; [done | lia |].
  intros i Hi. apply Hsame. lia.
Qed.

Lemma sum_bondCount_bump (s s1 : State) (k : nat) (n : nat) :
  (1 <= k <= n)%nat ->
  (forall i : nat, i <> k ->
     bondCount (batch_at s1 (N.of_nat i)) = bondCount (batch_at s (N.of_nat i))) ->
  bondCount (batch_at s1 (N.of_nat k)) = bondCount (batch_at s (N.of_nat k)) + 1 ->
  sum_bondCount s1 n = sum_bondCount s n + 1.
Proof.
  intros Hk Hother Hbump. induction n as [| n IH]; [lia |].
  cbn [sum_bondCount].
  destruct (Nat.eq_dec k (S n)) as [-> | Hne].
  - rewrite Hbump, (sum_bondCount_same s s1 n); [lia |].
    intros i Hi. apply Hother. lia.
  - rewrite IH by lia. rewrite (Hother (S n)) by lia. lia.
Qed.

(** What one transaction does to the bond counters: nothing, or it opens
    batch [currentBatchId + 1] with count 0, or it adds one bond to the open
    batch. *)
Lemma step_counters (s : State) (tx : Env * Call) :
  (currentBatchId (exec_tx s tx) = currentBatchId s
   /\ totalBonds (exec_tx s tx) = totalBonds s
   /\ forall id, bondCount (batch_at (exec_tx s tx) id)
                 = bondCount (batch_at s id))
  \/ (currentBatchId (exec_tx s tx) = currentBatchId s + 1
      /\ totalBonds (exec_tx s tx) = totalBonds s
      /\ bondCount (batch_at (exec_tx s tx) (currentBatchId s + 1)) = 0
      /\ forall id, id <> currentBatchId s + 1 ->
                    bondCount (batch_at (exec_tx s tx) id)
                    = bondCount (batch_at s id))
  \/ (currentBatchId (exec_tx s tx) = currentBatchId s
      /\ batchOpen s = true
      /\ totalBonds (exec_tx s tx) = totalBonds s + 1
      /\ bondCount (batch_at (exec_tx s tx) (currentBatchId s))
         = bondCount (batch_at s (currentBatchId s)) + 1
      /\ forall id, id <> currentBatchId s ->
                    bondCount (batch_at (exec_tx s tx) id)
                    = bondCount (batch_at s id)).
Proof.
  destruct tx as [env c]. unfold exec_tx; simpl.
  cases_of_tx c; reflect_eqb.
  all: try (left; repeat split; try reflexivity;
            intros id; read_mappings; reflexivity).
  all: try (right; left; repeat split; try reflexivity;
            [read_mappings; done | intros id Hid; read_mappings; done]).
  all: right; right; repeat split; try reflexivity; try assumption;
         [read_mappings; done | intros id Hid; read_mappings; done].
Qed.

Lemma step_sum_bondCount (s : State) (tx : Env * Call) :
  fresh_above s ->
  sum_bondCount s (N.to_nat (currentBatchId s)) = totalBonds s ->
  sum_bondCount (exec_tx s tx) (N.to_nat (currentBatchId (exec_tx s tx)))
  = totalBonds (exec_tx s tx).
Proof.
  intros (Ha & Hb & Hc) Hsum.
  destruct (step_counters s tx)
    as [(Hcur & Htot & Hsame) | [(Hcur & Htot & Hnew & Hsame)
                                | (Hcur & Hopen & Htot & Hbump & Hsame)]].
  - rewrite Hcur, Htot, <- Hsum. apply sum_bondCount_same.
    intros i _. apply Hsame.
  - rewrite Hcur, Htot, <- Hsum, N.add_1_r, N2Nat.inj_succ.
    cbn [sum_bondCount]. rewrite Nat2N.inj_succ, N2Nat.id, <- N.add_1_r, Hnew.
    rewrite (sum_bondCount_same s); [lia |].
    intros i Hi. apply Hsame. lia.
  - rewrite Hcur, Htot, <- Hsum.
    apply (sum_bondCount_bump s _ (N.to_nat (currentBatchId s))).
    + specialize (Hb Hopen). lia.
    + intros i Hi. apply Hsame. lia.
    + by rewrite N2Nat.id.
Qed.

(** *** Access control *)

Lemma owner_only_gate (env : Env) (c : Call) (s : State) :
  owner_only c = true -> msg_sender env <> owner s ->
  dispatch env c s = Revert NotOwner.
Proof.
  intros Hc Hne. apply N.eqb_neq in Hne.
  destruct c; try discriminate Hc; simpl;
    unfold_calls; unfold_monad; by rewrite Hne.
Qed.

(** X1. Over any run from any state, the successful [openBatch] and
    [closeBatch] calls strictly alternate, the first one being an open
    exactly when no batch was open at the start; the final [batchOpen] flag
    is the kind of the last such call (or the initial flag if there was
    none). *)
Theorem lifecycle_calls_alternate (s : State) (txs : list (Env * Call)) :
  alternating (batchOpen s) (lifecycle_steps (succeeded s txs))
  /\ batchOpen (exec s txs)
     = List.last (lifecycle_steps (succeeded s txs)) (batchOpen s).
Proof. destruct (exec_lifecycle txs s) as (Ha & Hb & _). by split. Qed.

(** X2. Over any run, [currentBatchId] grows by exactly the number of
    successful [openBatch] calls and [totalBonds] by exactly the number of
    successful [submitBond] calls; neither counter ever decreases. *)
Theorem counters_count_successful_calls (s : State) (txs : list (Env * Call)) :
  currentBatchId (exec s txs)
  = currentBatchId s + count_of is_openBatch (succeeded s txs)
  /\ totalBonds (exec s txs)
     = totalBonds s + count_of is_submitBond (succeeded s txs)
  /\ currentBatchId s <= currentBatchId (exec s txs)
  /\ totalBonds s <= totalBonds (exec s txs).
Proof.
  destruct (exec_lifecycle txs s) as (_ & _ & Hc & Ht).
  rewrite Hc, Ht. repeat split; lia.
Qed.

(** X3. In every reachable state a batch is finalized exactly when its id
    lies in [1 .. currentBatchId] and it is not the batch currently open. *)
Theorem finalized_iff_closed (s : State) (id : uint256) :
  reachable s ->
  finalized (batch_at s id) = true
  <-> (1 <= id /\ id <= currentBatchId s
       /\ ~ (id = currentBatchId s /\ batchOpen s = true)).
Proof.
  intros Hreach.
  destruct (reachable_lifecycle_inv s Hreach) as ((Ha & Hb & Hc) & Hold & Hcur).
  split.
  - intros Hfin.
    assert (Hnz : id <> 0) by (intros ->; by rewrite Hc in Hfin).
    assert (Hle : id <= currentBatchId s).
    { destruct (N.le_gt_cases id (currentBatchId s)) as [Hle | Hgt]; [done |].
      rewrite (Ha id Hgt) in Hfin. done. }
    repeat split; [lia | done |].
    intros [-> Hopen]. rewrite Hcur, Hopen in Hfin by lia. done.
  - intros (H1 & H2 & H3).
    destruct (N.eq_dec id (currentBatchId s)) as [-> | Hne].
    + rewrite Hcur by lia. destruct (batchOpen s); [| done].
      exfalso. by apply H3.
    + apply Hold; lia.
Qed.

(** X4. In every reachable state, a stored decryption context names a batch
    id not beyond [currentBatchId], finalized when the id is not 0, and its
    [stateHash] equals the commitment recomputed from the batch as it is
    now; so [myCallback] for a stored request id never reverts with
    [StateMismatch]. *)
Theorem stored_context_matches_batch
    (s : State) (requestId : uint256) (c : DecryptionContext) :
  reachable s ->
  decryptionContexts s !! requestId = Some c ->
  batchId c <= currentBatchId s
  /\ (batchId c <> 0 -> finalized (batch_at s (batchId c)) = true)
  /\ stateHash c = _hashCiphertexts (batch_cts (batch_at s (batchId c)))
  /\ forall cleartexts proof,
       myCallback requestId cleartexts proof s <> Revert StateMismatch.
Proof.
  intros Hreach Hl.
  destruct (reachable_contexts_committed s Hreach requestId c Hl)
    as ([Hle _] & Hh & Hf).
  repeat split; try assumption.
  intros cleartexts proof.
  unfold myCallback; unfold_monad; unfold context_at. rewrite Hl; simpl.
  destruct (processed c); simpl; [discriminate |].
  rewrite <- Hh, N.eqb_refl; simpl.
  destruct (FHE_checkSignatures _ _ _); simpl; [| discriminate].
  destruct (decode_uint32_uint32 cleartexts); simpl; discriminate.
Qed.

(** X5. A pending request can always be completed: in every reachable
    state, for a stored context that is not yet processed, a callback whose
    proof [FHE.checkSignatures] accepts and whose cleartexts decode succeeds,
    marks the context processed and emits [DecryptionCompleted] for the
    context's batch, whatever transactions ran since the request. *)
Theorem pending_request_completes
    (s : State) (requestId : uint256) (c : DecryptionContext)
    (cleartexts proof : bytes) (totalAmount count : uint256) :
  reachable s ->
  decryptionContexts s !! requestId = Some c ->
  processed c = false ->
  FHE_checkSignatures requestId cleartexts proof = true ->
  decode_uint32_uint32 cleartexts = Some (totalAmount, count) ->
  myCallback requestId cleartexts proof s
  = Return tt (write_context_processed requestId true s)
      [DecryptionCompleted requestId (batchId c) totalAmount count].
Proof.
  intros Hreach Hl Hp Hsig Hdec.
  destruct (reachable_contexts_committed s Hreach requestId c Hl)
    as (_ & Hh & _).
  unfold myCallback; unfold_monad; unfold context_at. rewrite Hl; simpl.
  rewrite Hp; simpl. rewrite <- Hh, N.eqb_refl; simpl.
  rewrite Hsig; simpl. rewrite Hdec; simpl. reflexivity.
Qed.
(** *** Submission *)

Lemma submitBond_Return (env : Env) (a m : euint32) (s s1 : State)
    (evs : list Event) :
  submitBond env a m s = Return tt s1 evs ->
  providers_at s (msg_sender env) = true
  /\ paused s = false
  /\ batchOpen s = true
  /\ lastSubmissionTime_at s (msg_sender env) + cooldownSeconds s
     <= block_timestamp env
  /\ providers s1 = providers s
  /\ paused s1 = false
  /\ batchOpen s1 = true
  /\ currentBatchId s1 = currentBatchId s
  /\ cooldownSeconds s1 = cooldownSeconds s
  /\ owner s1 = owner s
  /\ lastDecryptionRequestTime s1 = lastDecryptionRequestTime s
  /\ decryptionContexts s1 = decryptionContexts s
  /\ totalBonds s1 = totalBonds s + 1
  /\ bonds s1 = <[totalBonds s + 1 := mkBond a m]> (bonds s)
  /\ lastSubmissionTime s1
     = <[msg_sender env := block_timestamp env]> (lastSubmissionTime s)
  /\ evs = [BondSubmitted (msg_sender env) (totalBonds s + 1) (currentBatchId s)].
Proof.
  unfold_calls; unfold_monad; simpl. split_guards; try discriminate.
  all: intros [= <- <-]; reflect_eqb; simpl; repeat split; try done.
Qed.

(** X6. Submission cooldown. A successful [submitBond] stamps the caller's
    [lastSubmissionTime] with the block timestamp and leaves every other
    account's stamp and the decryption-request stamps alone. A further
    [submitBond] by the same caller in the resulting state reverts with
    [CooldownActive] at any timestamp earlier than stamp plus
    [cooldownSeconds] (when that sum fits 256 bits). *)
Theorem submitBond_starts_cooldown
    (env : Env) (a m : euint32) (s s1 : State) (evs : list Event) :
  submitBond env a m s = Return tt s1 evs ->
  lastSubmissionTime_at s1 (msg_sender env) = block_timestamp env
  /\ (forall other, other <> msg_sender env ->
        lastSubmissionTime_at s1 other = lastSubmissionTime_at s other)
  /\ lastDecryptionRequestTime s1 = lastDecryptionRequestTime s
  /\ forall env' a' m',
       msg_sender env' = msg_sender env ->
       block_timestamp env + cooldownSeconds s <= MAX_UINT256 ->
       block_timestamp env' < block_timestamp env + cooldownSeconds s ->
       submitBond env' a' m' s1 = Revert CooldownActive.
Proof.
  intros Hok.
  destruct (submitBond_Return _ _ _ _ _ _ Hok)
    as (_ & _ & _ & _ & Hprov & Hp & _ & _ & Hcd & _ & Hdec & _ & _ & _ & Hlast & _).
  destruct (submitBond_Return _ _ _ _ _ _ Hok) as (Hisprov & _).
  assert (Hstamp : lastSubmissionTime_at s1 (msg_sender env) = block_timestamp env).
  { unfold lastSubmissionTime_at. by rewrite Hlast, lookup_insert_eq. }
  repeat split; try assumption.
  - intros other Hne. unfold lastSubmissionTime_at.
    by rewrite Hlast, lookup_insert_ne.
  - intros env' a' m' Hsender Hfit Hearly.
    unfold submitBond; unfold_monad.
    unfold providers_at. rewrite Hsender, Hprov.
    unfold providers_at in Hisprov. rewrite Hisprov; simpl.
    rewrite Hp; simpl. rewrite Hstamp, Hcd.
    destruct (N.leb_spec (block_timestamp env + cooldownSeconds s) MAX_UINT256);
      [| lia]. simpl.
    destruct (N.ltb_spec (block_timestamp env')
                (block_timestamp env + cooldownSeconds s)); [done | lia].
Qed.

(** X7. Cooldown overflow. The cooldown test adds the caller's stamp and
    [cooldownSeconds] with checked arithmetic: when the sum exceeds
    2^256 - 1, [submitBond] by a registered provider and
    [requestBatchDecryption] by the owner revert with [Panic 0x11] at every
    block timestamp (the contract being unpaused). *)
Theorem cooldown_sum_overflow_panics (env : Env) (s : State) :
  paused s = false ->
  (providers_at s (msg_sender env) = true ->
   MAX_UINT256 < lastSubmissionTime_at s (msg_sender env) + cooldownSeconds s ->
   forall a m, submitBond env a m s = Revert (Panic 17))
  /\ (msg_sender env = owner s ->
      MAX_UINT256
      < lastDecryptionRequestTime_at s (msg_sender env) + cooldownSeconds s ->
      forall id, requestBatchDecryption env id s = Revert (Panic 17)).
Proof.
  intros Hp. split.
  - intros Hprov Hover a m. unfold submitBond; unfold_monad.
    rewrite Hprov; simpl. rewrite Hp; simpl.
    destruct (N.leb_spec
                (lastSubmissionTime_at s (msg_sender env) + cooldownSeconds s)
                MAX_UINT256); [lia | done].
  - intros Hown Hover id. unfold requestBatchDecryption; unfold_monad.
    apply N.eqb_eq in Hown. rewrite Hown; simpl. rewrite Hp; simpl.
    destruct (N.leb_spec
                (lastDecryptionRequestTime_at s (msg_sender env)
                 + cooldownSeconds s) MAX_UINT256); [lia | done].
Qed.

Lemma requestBatchDecryption_effect (env : Env) (id : uint256) (s s1 : State)
    (evs : list Event) :
  requestBatchDecryption env id s = Return tt s1 evs ->
  msg_sender env = owner s
  /\ paused s1 = false
  /\ owner s1 = owner s
  /\ cooldownSeconds s1 = cooldownSeconds s
  /\ lastSubmissionTime s1 = lastSubmissionTime s
  /\ lastDecryptionRequestTime s1
     = <[msg_sender env := block_timestamp env]> (lastDecryptionRequestTime s)
  /\ batches s1 = batches s
  /\ bonds s1 = bonds s.
Proof.
  unfold_calls; unfold_monad; simpl. split_guards; try discriminate.
  intros [= <- <-]; reflect_eqb; simpl; repeat split; done.
Qed.

(** X8. Decryption-request cooldown. A successful [requestBatchDecryption]
    stamps the caller's [lastDecryptionRequestTime] with the block timestamp,
    leaves the submission stamps, the batches and the bonds alone, and a
    further request by the same caller in the resulting state, for any batch
    id, reverts with [CooldownActive] at any timestamp earlier than stamp plus
    [cooldownSeconds] (when that sum fits 256 bits). *)
Theorem requestBatchDecryption_starts_cooldown
    (env : Env) (id : uint256) (s s1 : State) (evs : list Event) :
  requestBatchDecryption env id s = Return tt s1 evs ->
  lastDecryptionRequestTime_at s1 (msg_sender env) = block_timestamp env
  /\ lastSubmissionTime s1 = lastSubmissionTime s
  /\ batches s1 = batches s
  /\ bonds s1 = bonds s
  /\ forall env' id',
       msg_sender env' = msg_sender env ->
       block_timestamp env + cooldownSeconds s <= MAX_UINT256 ->
       block_timestamp env' < block_timestamp env + cooldownSeconds s ->
       requestBatchDecryption env' id' s1 = Revert CooldownActive.
Proof.
  intros Hok.
  destruct (requestBatchDecryption_effect _ _ _ _ _ Hok)
    as (Hown & Hp & Ho & Hcd & Hsub & Hlast & Hb & Hbonds).
  assert (Hstamp : lastDecryptionRequestTime_at s1 (msg_sender env)
                   = block_timestamp env).
  { unfold lastDecryptionRequestTime_at. by rewrite Hlast, lookup_insert_eq. }
  repeat split; try assumption.
  intros env' id' Hsender Hfit Hearly.
  unfold requestBatchDecryption; unfold_monad.
  rewrite Ho, Hsender, Hown, N.eqb_refl; simpl. rewrite Hp; simpl.
  rewrite <- Hown, Hstamp, Hcd.
  destruct (N.leb_spec (block_timestamp env + cooldownSeconds s) MAX_UINT256);
    [| lia]. simpl.
  destruct (N.ltb_spec (block_timestamp env')
              (block_timestamp env + cooldownSeconds s)); [done | lia].
Qed.
Lemma owner_only_calls_gate_state (env : Env) (c : Call) (s : State) :
  owner_only c = true -> msg_sender env <> owner s ->
  exec_tx s (env, c) = s.
Proof.
  intros Hc Hne. unfold exec_tx; simpl.
  by rewrite (owner_only_gate env c s Hc Hne).
Qed.

(** X9. Every entry point other than [submitBond] and [myCallback] rejects a
    caller who is not the owner with [NotOwner], before any other check:
    whatever the pause flag, the batch state, the cooldown or the
    arguments. *)
Theorem owner_only_calls_reject_others (env : Env) (c : Call) (s : State) :
  owner_only c = true -> msg_sender env <> owner s ->
  dispatch env c s = Revert NotOwner
  /\ exec_tx s (env, c) = s.
Proof.
  intros Hc Hne. pose proof (owner_only_gate env c s Hc Hne) as Hrev.
  split; [exact Hrev |]. unfold exec_tx; simpl. by rewrite Hrev.
Qed.

(** X10. A transaction sent by anyone but the owner changes none of: the
    owner, the provider registry, [cooldownSeconds], the pause flag,
    [currentBatchId], [batchOpen], the decryption-request stamps, the
    finalized flag of any batch, and the batch id and state hash of any
    decryption context. *)
Theorem non_owner_cannot_administer (s : State) (tx : Env * Call) :
  msg_sender (fst tx) <> owner s ->
  owner (exec_tx s tx) = owner s
  /\ providers (exec_tx s tx) = providers s
  /\ cooldownSeconds (exec_tx s tx) = cooldownSeconds s
  /\ paused (exec_tx s tx) = paused s
  /\ currentBatchId (exec_tx s tx) = currentBatchId s
  /\ batchOpen (exec_tx s tx) = batchOpen s
  /\ lastDecryptionRequestTime (exec_tx s tx) = lastDecryptionRequestTime s
  /\ (forall id, finalized (batch_at (exec_tx s tx) id)
                 = finalized (batch_at s id))
  /\ (forall requestId,
        batchId (context_at (exec_tx s tx) requestId)
        = batchId (context_at s requestId)
        /\ stateHash (context_at (exec_tx s tx) requestId)
           = stateHash (context_at s requestId)).
Proof.
  intros Hne. destruct tx as [env c]. simpl in Hne.
  destruct (owner_only c) eqn:Hc.
  - rewrite (owner_only_calls_gate_state env c s Hc Hne). repeat split; reflexivity.
  - unfold exec_tx; simpl.
    destruct c; try discriminate Hc; simpl; unfold_calls; unfold_monad; simpl;
      split_guards; simpl; repeat split; try congruence; intros;
      read_mappings; congruence.
Qed.
(** *** Configuration *)

Lemma step_cooldown_nonzero (s : State) (tx : Env * Call) :
  cooldownSeconds s <> 0 -> cooldownSeconds (exec_tx s tx) <> 0.
Proof.
  intros Hnz. destruct tx as [env c]. unfold exec_tx; simpl.
  cases_of_tx c; reflect_eqb; assumption.
Qed.

(** X11. [cooldownSeconds] is never zero in a reachable state: it starts at
    60 and [setCooldownSeconds] never succeeds with 0, whoever calls it. *)
Theorem cooldownSeconds_never_zero (s : State) :
  reachable s ->
  cooldownSeconds s <> 0
  /\ forall env, exists e, setCooldownSeconds env 0 s = Revert e.
Proof.
  intros (d & txs & ->). split.
  - assert (Hgen : forall txs s0, cooldownSeconds s0 <> 0 ->
                     cooldownSeconds (exec s0 txs) <> 0).
    { clear. intros txs. induction txs as [| tx txs IH]; intros s0 Hs0; [done |].
      simpl. apply IH, step_cooldown_nonzero, Hs0. }
    apply Hgen. simpl. lia.
  - intros env. unfold setCooldownSeconds; unfold_monad.
    destruct (negb (msg_sender env =? owner _)); simpl; eauto.
Qed.

(** X12. Every call that does not revert emits exactly one event. *)
Theorem successful_call_emits_one_event
    (env : Env) (c : Call) (s s1 : State) (evs : list Event) :
  dispatch env c s = Return tt s1 evs -> length evs = 1%nat.
Proof.
  destruct c; simpl; unfold_calls; unfold_monad; simpl;
    split_guards; try discriminate; by intros [= <- <-].
Qed.

(** X13. Pause and unpause. For the owner on an unpaused contract, [pause]
    followed by [unpause] gives back exactly the starting state; [pause]
    itself sets the flag and changes nothing else; and [unpause] on an
    unpaused contract succeeds and leaves the state as it is. *)
Theorem pause_then_unpause_restores (env env' : Env) (s : State) :
  msg_sender env = owner s ->
  msg_sender env' = owner s ->
  paused s = false ->
  exec_tx s (env, Call_pause) = set_paused true s
  /\ exec s [(env, Call_pause); (env', Call_unpause)] = s
  /\ unpause env' s = Return tt s [Unpaused (msg_sender env')].
Proof.
  intros Ho Ho' Hp.
  assert (Hs : set_paused false s = s) by (destruct s; simpl in *; by subst).
  assert (Hpause : exec_tx s (env, Call_pause) = set_paused true s).
  { unfold exec_tx; simpl. unfold pause; unfold_monad.
    rewrite Ho, N.eqb_refl; simpl. by rewrite Hp. }
  split; [exact Hpause |]. split.
  - simpl. rewrite Hpause. unfold exec_tx; simpl. unfold unpause; unfold_monad.
    simpl. rewrite Ho', N.eqb_refl; simpl. exact Hs.
  - unfold unpause; unfold_monad. rewrite Ho', N.eqb_refl; simpl.
    by rewrite Hs.
Qed.

(** X14. Provider registry. For the owner: [addProvider a] makes [a] a
    provider and [removeProvider a] makes it a non-provider, each leaving
    every other address as it was; adding twice gives the same state as
    adding once; and after [removeProvider a] every [submitBond] sent by [a]
    reverts with [NotProvider]. *)
Theorem provider_registry_updates (env : Env) (a : address) (s : State) :
  msg_sender env = owner s ->
  providers_at (exec_tx s (env, Call_addProvider a)) a = true
  /\ providers_at (exec_tx s (env, Call_removeProvider a)) a = false
  /\ (forall b, b <> a ->
        providers_at (exec_tx s (env, Call_addProvider a)) b = providers_at s b
        /\ providers_at (exec_tx s (env, Call_removeProvider a)) b
           = providers_at s b)
  /\ exec s [(env, Call_addProvider a); (env, Call_addProvider a)]
     = exec s [(env, Call_addProvider a)]
  /\ forall env' x y,
       msg_sender env' = a ->
       submitBond env' x y (exec_tx s (env, Call_removeProvider a))
       = Revert NotProvider.
Proof.
  intros Ho. apply N.eqb_eq in Ho.
  assert (Hadd : exec_tx s (env, Call_addProvider a)
                 = set_providers (<[a := true]> (providers s)) s).
  { unfold exec_tx; simpl. unfold addProvider; unfold_monad. by rewrite Ho. }
  assert (Hrem : exec_tx s (env, Call_removeProvider a)
                 = set_providers (<[a := false]> (providers s)) s).
  { unfold exec_tx; simpl. unfold removeProvider; unfold_monad. by rewrite Ho. }
  rewrite Hadd, Hrem. unfold providers_at; simpl.
  rewrite !lookup_insert_eq. repeat split; try done.
  - by rewrite lookup_insert_ne.
  - by rewrite lookup_insert_ne.
  - rewrite Hadd. unfold exec_tx; simpl. unfold addProvider; unfold_monad.
    simpl. rewrite Ho; simpl. unfold set_providers; simpl.
    by rewrite insert_insert_eq.
  - intros env' x y Hs. unfold submitBond; unfold_monad.
    unfold providers_at; simpl. by rewrite Hs, lookup_insert_eq.
Qed.
(** X15. Order of [submitBond]'s checks, each stopping the call: caller not a
    provider ([NotProvider]); contract paused ([PausedState]); stamp plus
    cooldown overflowing ([Panic 0x11]); cooldown not elapsed
    ([CooldownActive]); no open batch ([BatchNotOpen]); [totalBonds] or the
    batch's [bondCount] at 2^256 - 1 ([Panic 0x11]). When none applies the
    call succeeds, stores the bond under id [totalBonds + 1] and emits
    [BondSubmitted] with the caller, that id and the current batch id. *)
Theorem submitBond_check_order (env : Env) (a m : euint32) (s : State) :
  let ready := lastSubmissionTime_at s (msg_sender env) + cooldownSeconds s in
  (providers_at s (msg_sender env) = false ->
   submitBond env a m s = Revert NotProvider)
  /\ (providers_at s (msg_sender env) = true -> paused s = true ->
      submitBond env a m s = Revert PausedState)
  /\ (providers_at s (msg_sender env) = true -> paused s = false ->
      (MAX_UINT256 < ready -> submitBond env a m s = Revert (Panic 17))
      /\ (ready <= MAX_UINT256 -> block_timestamp env < ready ->
          submitBond env a m s = Revert CooldownActive)
      /\ (ready <= block_timestamp env -> ready <= MAX_UINT256 ->
          (batchOpen s = false -> submitBond env a m s = Revert BatchNotOpen)
          /\ (batchOpen s = true ->
              (totalBonds s = MAX_UINT256
               \/ bondCount (batch_at s (currentBatchId s)) = MAX_UINT256 ->
               submitBond env a m s = Revert (Panic 17))
              /\ (totalBonds s < MAX_UINT256 ->
                  bondCount (batch_at s (currentBatchId s)) < MAX_UINT256 ->
                  exists s1,
                    submitBond env a m s
                    = Return tt s1
                        [BondSubmitted (msg_sender env) (totalBonds s + 1)
                           (currentBatchId s)]
                    /\ bonds s1 !! (totalBonds s + 1) = Some (mkBond a m)
                    /\ totalBonds s1 = totalBonds s + 1
                    /\ aggregate (batch_at s1 (currentBatchId s))
                       = (FHE_add
                            (totalEncryptedAmount
                               (batch_at s (currentBatchId s))) a,
                          bondCount (batch_at s (currentBatchId s)) + 1))))).
Proof.
  intros ready. subst ready.
  split; [| split].
  - intros Hprov. unfold submitBond; unfold_monad. by rewrite Hprov.
  - intros Hprov Hp. unfold submitBond; unfold_monad.
    rewrite Hprov; simpl. by rewrite Hp.
  - intros Hprov Hp.
    unfold submitBond; unfold_monad. rewrite Hprov; simpl. rewrite Hp; simpl.
    destruct (N.leb_spec
                (lastSubmissionTime_at s (msg_sender env) + cooldownSeconds s)
                MAX_UINT256) as [Hfit | Hover]; simpl.
    2: { repeat split; intros; (done || lia). }
    split; [intros; lia |].
    destruct (N.ltb_spec (block_timestamp env)
                (lastSubmissionTime_at s (msg_sender env) + cooldownSeconds s))
      as [Hearly | Hlate]; simpl.
    { split; [done |]. intros; lia. }
    split; [intros; lia |]. intros _ _.
    destruct (batchOpen s) eqn:Hopen; simpl.
    2: { split; [done | discriminate]. }
    split; [discriminate |]. intros _.
    assert (Hinit : forall v s0, _initIfNeeded v s0 = Return tt s0 []).
    { intros v s0. unfold _initIfNeeded; unfold_monad.
      by destruct (negb (FHE_isInitialized v)). }
    unfold _initIfNeeded in Hinit; unfold_monad.
    rewrite !Hinit; simpl.
    destruct (N.leb_spec (totalBonds s + 1) MAX_UINT256) as [Htb | Htb]; simpl.
    2: { split; [done |]. intros; lia. }
    unfold aggregate. read_mappings; try done.
    destruct (N.leb_spec
                (bondCount (default zero_batch (batches s !! currentBatchId s))
                 + 1) MAX_UINT256) as [Hbc | Hbc]; simpl.
    2: { split; [done |]. intros; lia. }
    split.
    { unfold MAX_UINT256 in *. intros [He | He]; rewrite He in *; lia. }
    intros _ _. eexists. split; [reflexivity |].
    read_mappings; done.
Qed.
(** X16. Lifecycle errors. Right after a successful [openBatch], a second
    [openBatch] by the owner reverts with [BatchAlreadyOpen] while
    [closeBatch] by the owner succeeds; right after a successful
    [closeBatch], a second [closeBatch] by the owner reverts with
    [BatchNotOpen]; and on the freshly deployed contract the deployer's
    [closeBatch] reverts with [BatchNotOpen]. *)
Theorem lifecycle_errors (env env' : Env) (s s1 : State) (evs : list Event) :
  msg_sender env' = owner s1 ->
  (openBatch env s = Return tt s1 evs ->
   openBatch env' s1 = Revert BatchAlreadyOpen
   /\ exists s2, closeBatch env' s1
                 = Return tt s2 [BatchClosed (currentBatchId s1)])
  /\ (closeBatch env s = Return tt s1 evs ->
      closeBatch env' s1 = Revert BatchNotOpen)
  /\ (forall env0,
        closeBatch env0 (constructor (msg_sender env0)) = Revert BatchNotOpen).
Proof.
  intros Ho. apply N.eqb_eq in Ho. split; [| split].
  - intros Hopen.
    assert (Hs1 : paused s1 = false /\ batchOpen s1 = true).
    { revert Hopen. unfold openBatch; unfold_monad; simpl.
      split_guards; try discriminate. by intros [= <- <-]. }
    destruct Hs1 as [Hp Hb].
    unfold openBatch, closeBatch; unfold_monad.
    rewrite Ho; simpl. rewrite Hp; simpl. rewrite Hb; simpl.
    split; [done |]. eexists. reflexivity.
  - intros Hclose.
    assert (Hs1 : paused s1 = false /\ batchOpen s1 = false).
    { revert Hclose. unfold closeBatch; unfold_monad; simpl.
      split_guards; try discriminate. by intros [= <- <-]. }
    destruct Hs1 as [Hp Hb].
    unfold closeBatch; unfold_monad.
    rewrite Ho; simpl. rewrite Hp; simpl. by rewrite Hb.
  - intros env0. unfold closeBatch; unfold_monad; simpl.
    by rewrite N.eqb_refl.
Qed.

(** X17. The bond ledger. In every reachable state the bonds stored are
    exactly those with ids [1 .. totalBonds]: a lookup misses if and only if
    the id is 0 or greater than [totalBonds]. *)
Theorem bond_ids_are_one_to_totalBonds (s : State) (id : uint256) :
  reachable s ->
  bonds s !! id = None <-> (id = 0 \/ totalBonds s < id).
Proof.
  intros Hreach. revert id. change (ledger_inv s).
  destruct Hreach as (d & txs & ->).
  assert (Hgen : forall txs s0, ledger_inv s0 -> ledger_inv (exec s0 txs)).
  { clear. intros txs. induction txs as [| tx txs IH]; intros s0 Hs0; [done |].
    simpl. apply IH, step_ledger_inv, Hs0. }
  apply Hgen. intros id. simpl. rewrite lookup_empty. split; [| done].
  intros _. lia.
Qed.

(** X18. Bonds are never rewritten or deleted: a bond id not beyond
    [totalBonds] reads the same after any sequence of transactions. *)
Theorem bonds_are_immutable (s : State) (id : uint256)
    (txs : list (Env * Call)) :
  id <= totalBonds s ->
  bonds (exec s txs) !! id = bonds s !! id
  /\ id <= totalBonds (exec s txs).
Proof.
  intros Hle. destruct (exec_bond_kept txs s id Hle) as [H1 H2]. by split.
Qed.

(** X19. Every bond is counted in exactly one batch: in every reachable
    state the bond counts of batches [1 .. currentBatchId] add up to
    [totalBonds]. *)
Theorem bond_counts_add_up (s : State) :
  reachable s ->
  sum_bondCount s (N.to_nat (currentBatchId s)) = totalBonds s.
Proof.
  intros (d & txs & ->).
  assert (Hgen : forall txs s0,
             fresh_above s0 ->
             sum_bondCount s0 (N.to_nat (currentBatchId s0)) = totalBonds s0 ->
             sum_bondCount (exec s0 txs)
               (N.to_nat (currentBatchId (exec s0 txs)))
             = totalBonds (exec s0 txs)).
  { clear. intros txs. induction txs as [| tx txs IH]; intros s0 Hf Hs0; [done |].
    simpl. apply IH; [by apply step_fresh_above | by apply step_sum_bondCount]. }
  apply Hgen; [apply fresh_above_constructor | reflexivity].
Qed.

(** X20. Only providers add bonds: a transaction that changes [totalBonds]
    is a [submitBond] sent by a registered provider while the contract is
    unpaused, a batch is open and the caller's cooldown has elapsed; it adds
    exactly one bond, stored under the new [totalBonds]. *)
Theorem only_provider_adds_bonds (s : State) (tx : Env * Call) :
  totalBonds (exec_tx s tx) <> totalBonds s ->
  exists a m,
    snd tx = Call_submitBond a m
    /\ providers_at s (msg_sender (fst tx)) = true
    /\ paused s = false
    /\ batchOpen s = true
    /\ lastSubmissionTime_at s (msg_sender (fst tx)) + cooldownSeconds s
       <= block_timestamp (fst tx)
    /\ totalBonds (exec_tx s tx) = totalBonds s + 1
    /\ bonds (exec_tx s tx) !! (totalBonds s + 1) = Some (mkBond a m).
Proof.
  destruct tx as [env c]. unfold exec_tx; simpl.
  destruct (dispatch env c s) as [e | [] s1 evs] eqn:Hd; [done |].
  destruct c as [? | ? | ? | ? | | | | | a m | ? | ? ? ?]; simpl in Hd;
    try (revert Hd; unfold_calls; unfold_monad; simpl;
         split_guards; try discriminate; intros [= <- <-]; simpl; done).
  intros _.
  destruct (submitBond_Return _ _ _ _ _ _ Hd)
    as (Hprov & Hp & Hopen & Hcool & _ & _ & _ & _ & _ & _ & _ & _ & Htb & Hb & _).
  exists a, m.
  rewrite Hb, lookup_insert_eq. repeat split; done.
Qed.
(** X21. A paused contract is frozen for bonds and batches: whatever
    transaction is sent while [paused] is set, the batches, the bonds,
    [totalBonds], [currentBatchId], [batchOpen] and both cooldown stamp maps
    stay as they are. *)
Theorem paused_freezes_batches_and_bonds (s : State) (tx : Env * Call) :
  paused s = true ->
  batches (exec_tx s tx) = batches s
  /\ bonds (exec_tx s tx) = bonds s
  /\ totalBonds (exec_tx s tx) = totalBonds s
  /\ currentBatchId (exec_tx s tx) = currentBatchId s
  /\ batchOpen (exec_tx s tx) = batchOpen s
  /\ lastSubmissionTime (exec_tx s tx) = lastSubmissionTime s
  /\ lastDecryptionRequestTime (exec_tx s tx) = lastDecryptionRequestTime s.
Proof.
  intros Hp. destruct tx as [env c]. unfold exec_tx; simpl.
  destruct c; simpl; unfold_calls; unfold_monad; simpl;
    split_guards; simpl; try congruence; repeat split; congruence.
Qed.

End Further.

(** ** The protocol on concrete transactions *)

#[local] Existing Instance toy_FHE.
#[local] Existing Instance toy_EVM.

Example end_to_end_reveal :
  myCallback 77 cleartexts_350_2 good_proof state_requested
  = Return tt (write_context_processed 77 true state_requested)
      [DecryptionCompleted 77 1 350 2].
Proof. vm_compute. reflexivity. Qed.

(** C8 as stated fails: on a paused contract the oracle's callback for a
    pending request still completes and flips the processed flag, and
    [openBatch] from an account that is not the owner reports [NotOwner],
    not [PausedState]. *)
Lemma paused_callback_still_completes :
  paused state_paused = true
  /\ myCallback 77 cleartexts_350_2 good_proof state_paused
     <> Revert PausedState
  /\ processed (context_at state_paused 77) = false
  /\ processed
       (context_at
          (exec_tx state_paused
             (oracle_env, Call_myCallback 77 cleartexts_350_2 good_proof)) 77)
     = true
  /\ openBatch oracle_env state_paused = Revert NotOwner.
Proof. vm_compute. repeat split; (reflexivity || discriminate). Qed.

(** *** The theorems at work on the example run *)

Lemma myCallback_succeeds_at_most_once_witness :
  myCallback 77 cleartexts_350_2 good_proof state_requested
  = Return tt (write_context_processed 77 true state_requested)
      [DecryptionCompleted 77 1 350 2]
  /\ myCallback 77 [] good_proof
       (exec (write_context_processed 77 true state_requested) later_txs)
     = Revert ReplayAttempt.
Proof.
  assert (Hok : myCallback 77 cleartexts_350_2 good_proof state_requested
                = Return tt (write_context_processed 77 true state_requested)
                    [DecryptionCompleted 77 1 350 2])
    by (vm_compute; reflexivity).
  split; [exact Hok |].
  apply (myCallback_succeeds_at_most_once _ _ _ _ _ _ Hok).
  vm_compute. intros [E | []]. discriminate E.
Defined.

Example submitted_into_batch_1 :
  submitted_into 1 state_opened txs_after_open = [100; 250].
Proof. vm_compute. reflexivity. Qed.

Lemma batch_aggregate_is_fold_of_submissions_witness :
  openBatch (owner_env 100 0) state_before_open
  = Return tt state_opened [BatchOpened 1]
  /\ totalEncryptedAmount
       (batch_at (exec state_opened txs_after_open) (currentBatchId state_opened))
     = fold_left FHE_add
         (submitted_into (currentBatchId state_opened) state_opened txs_after_open) 0
  /\ bondCount
       (batch_at (exec state_opened txs_after_open) (currentBatchId state_opened))
     = N.of_nat
         (length (submitted_into (currentBatchId state_opened) state_opened
                    txs_after_open)).
Proof.
  assert (Hopen : openBatch (owner_env 100 0) state_before_open
                  = Return tt state_opened [BatchOpened 1])
    by (vm_compute; reflexivity).
  split; [exact Hopen |].
  apply (batch_aggregate_is_fold_of_submissions _ _ _ _ Hopen).
Defined.

Lemma myCallback_detects_mutated_batch_witness :
  requestBatchDecryption (owner_env 500 77) 1 state_closed
  = Return tt state_requested [DecryptionRequested 77 1]
  /\ myCallback 77 cleartexts_350_2 good_proof state_tampered
     = Revert StateMismatch
  /\ myCallback 77 cleartexts_350_2 good_proof state_requested
     <> Revert StateMismatch.
Proof.
  assert (Hreq : requestBatchDecryption (owner_env 500 77) 1 state_closed
                 = Return tt state_requested [DecryptionRequested 77 1])
    by (vm_compute; reflexivity).
  split; [exact Hreq |]. split.
  - apply (proj1 (myCallback_detects_mutated_batch
                    (owner_env 500 77) 1 state_closed state_requested
                    state_tampered _ cleartexts_350_2 good_proof Hreq
                    ltac:(vm_compute; reflexivity))).
    + vm_compute. intros E. discriminate E.
    + vm_compute. intros E. discriminate E.
    + intros h1 h2 E. exact E.
    + intros _. vm_compute. reflexivity.
  - apply (proj2 (myCallback_detects_mutated_batch
                    (owner_env 500 77) 1 state_closed state_requested
                    state_requested _ cleartexts_350_2 good_proof Hreq
                    ltac:(reflexivity))).
    reflexivity.
Defined.

Lemma myCallback_invalid_proof_witness :
  FHE_checkSignatures 77 cleartexts_350_2 [] = false
  /\ myCallback 77 cleartexts_350_2 [] state_requested = Revert InvalidProof
  /\ exec_tx state_requested (oracle_env, Call_myCallback 77 cleartexts_350_2 [])
     = state_requested.
Proof.
  split; [reflexivity |].
  destruct (myCallback_invalid_proof 77 cleartexts_350_2 [] state_requested)
    as [Hrev Hsame].
  - vm_compute. reflexivity.
  - vm_compute. reflexivity.
  - vm_compute. reflexivity.
  - split; [exact Hrev |]. apply (Hsame oracle_env).
Defined.

Lemma myCallback_check_order_witness :
  decode_uint32_uint32 cleartexts_350_2 = Some (350, 2)
  /\ myCallback 77 cleartexts_350_2 good_proof state_requested
     = Return tt (write_context_processed 77 true state_requested)
         [DecryptionCompleted 77 1 350 2]
  /\ myCallback 77 cleartexts_350_2 []
       (write_context_processed 77 true state_requested)
     = Revert ReplayAttempt.
Proof.
  split; [vm_compute; reflexivity |]. split.
  - destruct (myCallback_check_order 77 cleartexts_350_2 good_proof
                state_requested) as (_ & _ & _ & Hpass).
    assert (Hp : processed (context_at state_requested 77) = false)
      by (vm_compute; reflexivity).
    assert (Hh : _hashCiphertexts
                   (batch_cts
                      (batch_at state_requested
                         (batchId (context_at state_requested 77))))
                 = stateHash (context_at state_requested 77))
      by (vm_compute; reflexivity).
    specialize (Hpass Hp Hh ltac:(vm_compute; reflexivity)).
    replace (decode_uint32_uint32 cleartexts_350_2) with (Some (350, 2))
      in Hpass by (vm_compute; reflexivity).
    destruct Hpass as (_ & _ & _ & _ & Hret). exact Hret.
  - apply (proj1 (myCallback_check_order 77 cleartexts_350_2 []
                    (write_context_processed 77 true state_requested))).
    vm_compute. reflexivity.
Defined.

Lemma requestBatchDecryption_InvalidBatch_iff_witness :
  requestBatchDecryption (owner_env 500 77) 0 state_closed = Revert InvalidBatch
  /\ requestBatchDecryption (owner_env 500 77) 2 state_closed
     = Revert InvalidBatch
  /\ requestBatchDecryption (owner_env 500 77) 1 state_closed
     <> Revert InvalidBatch.
Proof.
  assert (Hgen : forall id,
             (requestBatchDecryption (owner_env 500 77) id state_closed
              = Revert InvalidBatch
              <-> (id = 0 \/ currentBatchId state_closed < id
                   \/ finalized (batch_at state_closed id) = false))).
  { intros id.
    apply (requestBatchDecryption_InvalidBatch_iff (owner_env 500 77) id
             state_closed).
    - vm_compute. reflexivity.
    - vm_compute. reflexivity.
    - vm_compute. intros E. discriminate E.
    - vm_compute. intros E. discriminate E. }
  split; [| split].
  - apply Hgen. left. reflexivity.
  - apply Hgen. right. left. vm_compute. reflexivity.
  - intros Hrev. apply Hgen in Hrev. vm_compute in Hrev.
    destruct Hrev as [E | [E | E]]; discriminate E.
Defined.

Lemma finalized_batch_is_immutable_witness :
  closeBatch (owner_env 400 0) state_before_close
  = Return tt state_closed [BatchClosed 1]
  /\ finalized (batch_at state_closed (currentBatchId state_before_close)) = true
  /\ batch_at (exec state_closed later_txs) (currentBatchId state_before_close)
     = batch_at state_closed (currentBatchId state_before_close).
Proof.
  assert (Hclose : closeBatch (owner_env 400 0) state_before_close
                   = Return tt state_closed [BatchClosed 1])
    by (vm_compute; reflexivity).
  assert (Hreach : reachable state_before_close).
  { exists 1. eexists. unfold state_before_close. reflexivity. }
  split; [exact Hclose |].
  destruct (finalized_batch_is_immutable _ _ _ _ Hreach Hclose) as [Hfin Hrun].
  split; [exact Hfin |]. apply (Hrun later_txs).
Defined.

Lemma paused_contract_gates_witness :
  paused state_paused = true
  /\ openBatch (owner_env 700 0) state_paused = Revert PausedState
  /\ unpause (owner_env 700 0) state_paused
     = Return tt (set_paused false state_paused)
         [Unpaused (msg_sender (owner_env 700 0))].
Proof.
  assert (Hp : paused state_paused = true) by (vm_compute; reflexivity).
  split; [exact Hp |].
  destruct (paused_contract_gates (owner_env 700 0) state_paused Hp)
    as (Howner & _ & _ & Hadmin & _).
  split.
  - apply Howner. vm_compute. reflexivity.
  - destruct Hadmin as [Hunpause _]; [vm_compute; reflexivity |].
    exact Hunpause.
Defined.

Lemma myCallback_unknown_request_rejected_witness :
  decryptionContexts state_requested !! (5 : N) = None
  /\ myCallback 5 cleartexts_350_2 good_proof state_requested
     = Revert StateMismatch.
Proof.
  assert (Hnone : decryptionContexts state_requested !! (5 : N) = None)
    by (vm_compute; reflexivity).
  split; [exact Hnone |].
  apply (myCallback_unknown_request_rejected 5 cleartexts_350_2 good_proof
           state_requested).
  - exists 1, scenario_requested. reflexivity.
  - exact Hnone.
  - vm_compute. intros E. discriminate E.
Defined.

(** *** The further properties on the example run *)

Lemma finalized_iff_closed_witness :
  reachable state_requested
  /\ (finalized (batch_at state_requested 1) = true
      <-> (1 <= 1 /\ 1 <= currentBatchId state_requested
           /\ ~ (1 = currentBatchId state_requested
                 /\ batchOpen state_requested = true))).
Proof.
  assert (Hreach : reachable state_requested)
    by (exists 1, scenario_requested; reflexivity).
  split; [exact Hreach |].
  apply (finalized_iff_closed state_requested 1 Hreach).
Defined.

Lemma stored_context_matches_batch_witness :
  decryptionContexts state_requested !! (77 : N)
  = Some (context_at state_requested 77)
  /\ stateHash (context_at state_requested 77)
     = _hashCiphertexts
         (batch_cts
            (batch_at state_requested (batchId (context_at state_requested 77)))).
Proof.
  assert (Hl : decryptionContexts state_requested !! (77 : N)
               = Some (context_at state_requested 77))
    by (vm_compute; reflexivity).
  split; [exact Hl |].
  assert (Hreach : reachable state_requested)
    by (exists 1, scenario_requested; reflexivity).
  destruct (stored_context_matches_batch state_requested 77 _ Hreach Hl)
    as (_ & _ & Hh & _).
  exact Hh.
Defined.

Lemma pending_request_completes_witness :
  decode_uint32_uint32 cleartexts_350_2 = Some (350, 2)
  /\ myCallback 77 cleartexts_350_2 good_proof state_requested
     = Return tt (write_context_processed 77 true state_requested)
         [DecryptionCompleted 77 (batchId (context_at state_requested 77)) 350 2].
Proof.
  assert (Hdec : decode_uint32_uint32 cleartexts_350_2 = Some (350, 2))
    by (vm_compute; reflexivity).
  split; [exact Hdec |].
  apply (pending_request_completes state_requested 77
           (context_at state_requested 77) cleartexts_350_2 good_proof 350 2).
  - exists 1, scenario_requested. reflexivity.
  - vm_compute. reflexivity.
  - vm_compute. reflexivity.
  - vm_compute. reflexivity.
  - exact Hdec.
Defined.

Lemma submitBond_starts_cooldown_witness :
  submitBond (provider_env 200) 100 7 state_opened
  = Return tt state_one_bond [BondSubmitted 2 1 1]
  /\ submitBond (provider_env 210) 5 5 state_one_bond = Revert CooldownActive.
Proof.
  assert (Hok : submitBond (provider_env 200) 100 7 state_opened
                = Return tt state_one_bond [BondSubmitted 2 1 1])
    by (vm_compute; reflexivity).
  split; [exact Hok |].
  destruct (submitBond_starts_cooldown _ _ _ _ _ _ Hok) as (_ & _ & _ & Hnext).
  apply Hnext.
  - reflexivity.
  - vm_compute. intros E. discriminate E.
  - vm_compute. reflexivity.
Defined.

Lemma cooldown_sum_overflow_panics_witness :
  paused state_huge_cooldown = false
  /\ submitBond (provider_env 1000000) 5 5 state_huge_cooldown
     = Revert (Panic 17).
Proof.
  assert (Hp : paused state_huge_cooldown = false) by (vm_compute; reflexivity).
  split; [exact Hp |].
  apply (proj1 (cooldown_sum_overflow_panics (provider_env 1000000)
                  state_huge_cooldown Hp)).
  - vm_compute. reflexivity.
  - vm_compute. reflexivity.
Defined.

Lemma requestBatchDecryption_starts_cooldown_witness :
  requestBatchDecryption (owner_env 500 77) 1 state_closed
  = Return tt state_requested [DecryptionRequested 77 1]
  /\ requestBatchDecryption (owner_env 510 78) 1 state_requested
     = Revert CooldownActive.
Proof.
  assert (Hok : requestBatchDecryption (owner_env 500 77) 1 state_closed
                = Return tt state_requested [DecryptionRequested 77 1])
    by (vm_compute; reflexivity).
  split; [exact Hok |].
  destruct (requestBatchDecryption_starts_cooldown _ _ _ _ _ Hok)
    as (_ & _ & _ & _ & Hnext).
  apply Hnext.
  - reflexivity.
  - vm_compute. intros E. discriminate E.
  - vm_compute. reflexivity.
Defined.

Lemma owner_only_calls_reject_others_witness :
  msg_sender oracle_env <> owner state_closed
  /\ dispatch oracle_env Call_openBatch state_closed = Revert NotOwner.
Proof.
  assert (Hne : msg_sender oracle_env <> owner state_closed)
    by (vm_compute; intros E; discriminate E).
  split; [exact Hne |].
  apply (proj1 (owner_only_calls_reject_others oracle_env Call_openBatch
                  state_closed eq_refl Hne)).
Defined.

Lemma non_owner_cannot_administer_witness :
  msg_sender oracle_env <> owner state_requested
  /\ owner (exec_tx state_requested
              (oracle_env, Call_myCallback 77 cleartexts_350_2 good_proof))
     = owner state_requested.
Proof.
  assert (Hne : msg_sender oracle_env <> owner state_requested)
    by (vm_compute; intros E; discriminate E).
  split; [exact Hne |].
  apply (proj1 (non_owner_cannot_administer state_requested
                  (oracle_env, Call_myCallback 77 cleartexts_350_2 good_proof)
                  Hne)).
Defined.

Lemma cooldownSeconds_never_zero_witness :
  reachable state_huge_cooldown /\ cooldownSeconds state_huge_cooldown <> 0.
Proof.
  assert (Hreach : reachable state_huge_cooldown).
  { exists 1,
      [ (owner_env 100 0, Call_addProvider 2);
        (owner_env 100 0, Call_openBatch);
        (provider_env 200, Call_submitBond 100 7);
        (owner_env 250 0, Call_setCooldownSeconds MAX_UINT256) ].
    vm_compute. reflexivity. }
  split; [exact Hreach |].
  apply (proj1 (cooldownSeconds_never_zero state_huge_cooldown Hreach)).
Defined.

Lemma successful_call_emits_one_event_witness :
  dispatch (owner_env 500 77) (Call_requestBatchDecryption 1) state_closed
  = Return tt state_requested [DecryptionRequested 77 1]
  /\ length [DecryptionRequested 77 1] = 1%nat.
Proof.
  assert (Hok : dispatch (owner_env 500 77) (Call_requestBatchDecryption 1)
                  state_closed
                = Return tt state_requested [DecryptionRequested 77 1])
    by (vm_compute; reflexivity).
  split; [exact Hok |].
  apply (successful_call_emits_one_event _ _ _ _ _ Hok).
Defined.

Lemma pause_then_unpause_restores_witness :
  paused state_requested = false
  /\ exec state_requested
       [(owner_env 600 0, Call_pause); (owner_env 700 0, Call_unpause)]
     = state_requested.
Proof.
  assert (Hp : paused state_requested = false) by (vm_compute; reflexivity).
  split; [exact Hp |].
  destruct (pause_then_unpause_restores (owner_env 600 0) (owner_env 700 0)
              state_requested) as (_ & Hround & _).
  - vm_compute. reflexivity.
  - vm_compute. reflexivity.
  - exact Hp.
  - exact Hround.
Defined.

Lemma provider_registry_updates_witness :
  msg_sender (owner_env 100 0) = owner (constructor 1)
  /\ providers_at
       (exec_tx (constructor 1) (owner_env 100 0, Call_addProvider 2)) 2
     = true.
Proof.
  assert (Ho : msg_sender (owner_env 100 0) = owner (constructor 1))
    by reflexivity.
  split; [exact Ho |].
  apply (proj1 (provider_registry_updates (owner_env 100 0) 2 (constructor 1)
                  Ho)).
Defined.

Lemma submitBond_check_order_witness :
  providers_at state_opened (msg_sender oracle_env) = false
  /\ submitBond oracle_env 5 5 state_opened = Revert NotProvider.
Proof.
  assert (Hnp : providers_at state_opened (msg_sender oracle_env) = false)
    by (vm_compute; reflexivity).
  split; [exact Hnp |].
  apply (proj1 (submitBond_check_order oracle_env 5 5 state_opened) Hnp).
Defined.

Lemma lifecycle_errors_witness :
  openBatch (owner_env 100 0) state_before_open
  = Return tt state_opened [BatchOpened 1]
  /\ openBatch (owner_env 150 0) state_opened = Revert BatchAlreadyOpen.
Proof.
  assert (Hopen : openBatch (owner_env 100 0) state_before_open
                  = Return tt state_opened [BatchOpened 1])
    by (vm_compute; reflexivity).
  split; [exact Hopen |].
  destruct (lifecycle_errors (owner_env 100 0) (owner_env 150 0)
              state_before_open state_opened [BatchOpened 1])
    as (Hafter_open & _ & _).
  - vm_compute. reflexivity.
  - apply (proj1 (Hafter_open Hopen)).
Defined.

Lemma bond_ids_are_one_to_totalBonds_witness :
  reachable state_requested
  /\ (bonds state_requested !! (3 : N) = None
      <-> (3 = 0 \/ totalBonds state_requested < 3)).
Proof.
  assert (Hreach : reachable state_requested)
    by (exists 1, scenario_requested; reflexivity).
  split; [exact Hreach |].
  apply (bond_ids_are_one_to_totalBonds state_requested 3 Hreach).
Defined.

Lemma bonds_are_immutable_witness :
  1 <= totalBonds state_closed
  /\ bonds (exec state_closed later_txs) !! (1 : N) = bonds state_closed !! (1 : N).
Proof.
  assert (Hle : 1 <= totalBonds state_closed)
    by (vm_compute; intros E; discriminate E).
  split; [exact Hle |].
  apply (proj1 (bonds_are_immutable state_closed 1 later_txs Hle)).
Defined.

Lemma bond_counts_add_up_witness :
  reachable state_requested
  /\ sum_bondCount state_requested (N.to_nat (currentBatchId state_requested))
     = totalBonds state_requested.
Proof.
  assert (Hreach : reachable state_requested)
    by (exists 1, scenario_requested; reflexivity).
  split; [exact Hreach |].
  apply (bond_counts_add_up state_requested Hreach).
Defined.

Lemma only_provider_adds_bonds_witness :
  totalBonds (exec_tx state_opened (provider_env 200, Call_submitBond 100 7))
  <> totalBonds state_opened
  /\ exists a m,
       snd (provider_env 200, Call_submitBond 100 7) = Call_submitBond a m
       /\ providers_at state_opened
            (msg_sender (fst (provider_env 200, Call_submitBond 100 7))) = true
       /\ paused state_opened = false
       /\ batchOpen state_opened = true
       /\ lastSubmissionTime_at state_opened
            (msg_sender (fst (provider_env 200, Call_submitBond 100 7)))
          + cooldownSeconds state_opened
          <= block_timestamp (fst (provider_env 200, Call_submitBond 100 7))
       /\ totalBonds
            (exec_tx state_opened (provider_env 200, Call_submitBond 100 7))
          = totalBonds state_opened + 1
       /\ bonds (exec_tx state_opened (provider_env 200, Call_submitBond 100 7))
            !! (totalBonds state_opened + 1) = Some (mkBond a m).
Proof.
  assert (Hne : totalBonds
                  (exec_tx state_opened (provider_env 200, Call_submitBond 100 7))
                <> totalBonds state_opened)
    by (vm_compute; intros E; discriminate E).
  split; [exact Hne |].
  apply (only_provider_adds_bonds state_opened
           (provider_env 200, Call_submitBond 100 7) Hne).
Defined.

Lemma paused_freezes_batches_and_bonds_witness :
  paused state_paused = true
  /\ batches (exec_tx state_paused
                (oracle_env, Call_myCallback 77 cleartexts_350_2 good_proof))
     = batches state_paused.
Proof.
  assert (Hp : paused state_paused = true) by (vm_compute; reflexivity).
  split; [exact Hp |].
  apply (proj1 (paused_freezes_batches_and_bonds state_paused
                  (oracle_env, Call_myCallback 77 cleartexts_350_2 good_proof)
                  Hp)).
Defined.
